(** * backend/server.py: agent dispatch and the wallpaper pipeline

    A shallow embedding of the FastAPI handlers of [backend/server.py] and
    the properties of them that the specification states.  The handlers are
    [async] functions that read and assign module globals, call the agent
    library, the Mongo driver and the logger, and raise or catch exceptions;
    they are embedded as computations in a state-and-exception monad over a
    [World] holding the globals, the [db.wallpapers] collection and the
    state of the collaborators. *)

From Stdlib Require Import ZArith Lia.
From stdpp Require Import base strings list gmap sorting pretty.

Local Open Scope Z_scope.
Local Open Scope string_scope.

(** ** Python values *)

(** The scalar values that occur in the dictionaries the handlers read
    ([image_result], [metadata]). *)
Inductive pyval : Type :=
| VNone
| VBool (b : bool)
| VInt (n : Z)
| VStr (s : string).

Global Instance pyval_eq_dec : EqDecision pyval.
Proof. solve_decision. Defined.

(** Python truthiness, as used by [if not image_result["success"]]. *)
Definition truthy (v : pyval) : bool :=
  match v with
  | VNone => false
  | VBool b => b
  | VInt n => negb (n =? 0)%Z
  | VStr s => negb (String.eqb s "")
  end.

(** [d.get(k, default)] *)
Definition dict_get (d : gmap string pyval) (k : string) (dflt : pyval) : pyval :=
  default dflt (d !! k).

(** ** Exceptions *)

(** [HTTPException(status_code, detail)] of the web framework, and any other
    exception, which the handlers only ever observe through [str(e)]. *)
Inductive exn : Type :=
| HTTPException (status_code : Z) (detail : pyval)
| Exception (msg : string).

(** [str(KeyError(k))] is the [repr] of the key. *)
Definition KeyError (k : string) : exn := Exception ("'" +:+ k +:+ "'").

(** What a handler ends with: a returned value or a raised exception. *)
Inductive result (A : Type) : Type :=
| Ok (a : A)
| Raise (e : exn).
Arguments Ok {A} a.
Arguments Raise {A} e.

(** ** Pydantic models *)

Module ChatRequest.
Record t : Type := mk {
  message : string;
  agent_type : string;                       (* default "chat" *)
  context : option (gmap string pyval)
}.
End ChatRequest.

Module ChatResponse.
Record t : Type := mk {
  success : bool;
  response : string;
  agent_type : string;
  capabilities : list string;
  metadata : gmap string pyval;             (* default_factory=dict *)
  error : option string
}.
End ChatResponse.

Module SearchRequest.
Record t : Type := mk {
  query : string;
  max_results : Z                            (* default 5 *)
}.
End SearchRequest.

Module SearchResponse.
Record t : Type := mk {
  success : bool;
  query : string;
  summary : string;
  search_results : option (gmap string pyval);
  sources_count : Z;
  error : option string
}.
End SearchResponse.

Module WallpaperRequest.
Record t : Type := mk {
  prompt : string;
  aspect_ratio : string;                     (* default "9:16" *)
  megapixels : string;                       (* default "1" *)
  style : option string
}.
End WallpaperRequest.

Module WallpaperResponse.
Record t : Type := mk {
  success : bool;
  id : string;
  prompt : string;
  image_url : option string;
  preview_url : option string;
  created_at : Z;                            (* default_factory=datetime.utcnow *)
  error : option string
}.
End WallpaperResponse.

(** A document of [db.wallpapers]; [created_at] is a point in time, counted
    in the clock's smallest unit. *)
Module Wallpaper.
Record t : Type := mk {
  id : string;
  prompt : string;
  aspect_ratio : string;
  image_url : string;
  image_data : string;
  created_at : Z
}.
End Wallpaper.

Module StatusCheck.
Record t : Type := mk {
  id : string;                               (* default_factory uuid4 *)
  client_name : string;
  timestamp : Z                              (* default_factory=datetime.utcnow *)
}.
End StatusCheck.

Module StatusCheckCreate.
Record t : Type := mk {
  client_name : string
}.
End StatusCheckCreate.

(** The order of [.sort("created_at", -1)]: newest first. *)
Definition created_at_desc (x y : Wallpaper.t) : Prop :=
  (Wallpaper.created_at y <= Wallpaper.created_at x)%Z.

Global Instance created_at_desc_dec (x y : Wallpaper.t) : Decision (created_at_desc x y).
Proof. unfold created_at_desc. apply _. Defined.

(** [datetime.utcnow()] counts microseconds; the store keeps a date as a
    whole number of milliseconds: the driver drops the rest when it
    encodes a document, so a stored instant reads back rounded down to the
    millisecond. *)
Definition bson_datetime (t : Z) : Z := (1000 * (t / 1000))%Z.

(** A document as the store holds it. *)
Definition stored_wallpaper (doc : Wallpaper.t) : Wallpaper.t :=
  Wallpaper.mk (Wallpaper.id doc) (Wallpaper.prompt doc) (Wallpaper.aspect_ratio doc)
    (Wallpaper.image_url doc) (Wallpaper.image_data doc)
    (bson_datetime (Wallpaper.created_at doc)).

Definition stored_status_check (doc : StatusCheck.t) : StatusCheck.t :=
  StatusCheck.mk (StatusCheck.id doc) (StatusCheck.client_name doc)
    (bson_datetime (StatusCheck.timestamp doc)).

(** ** The agent library, the driver and the framework *)

Inductive AgentClass : Type := SearchAgent | ChatAgent.

Global Instance AgentClass_eq_dec : EqDecision AgentClass.
Proof. solve_decision. Defined.

(** Modelled from the spec: the object [agent.execute] returns, whose class
    is declared in [ai_agents.agents] (section 3, Outcome): [success],
    [content], [metadata] and an optional [error]. *)
Record Outcome : Type := mkOutcome {
  success : bool;
  content : string;
  metadata : gmap string pyval;
  error : option string
}.

(** What the handlers import and call but do not define.  A call that can
    raise returns [inl] of the exception's [str].

    - [agent_init cls cfg]: the constructor [cls(cfg)]; [Some msg] when it
      raises.  Its outcome depends on the class and on the configuration
      only.
    - [agent_execute]: [agent.execute(message)] ([None]) or
      [agent.execute(message, use_tools=b)] ([Some b]); it may change the
      collaborators' state [Env].
    - [agent_capabilities]: [agent.get_capabilities()], static per agent.
    - [uuid4], [utcnow]: [str(uuid.uuid4())] and [datetime.utcnow()].
    - [db_fault]: asked once per operation on [db.wallpapers]; [Some msg]
      when the driver raises instead of performing it.
    - [str_HTTPException]: [str(e)] of an [HTTPException].
    - [coerce_int], [coerce_str]: what pydantic does with a value that is
      not already of the annotated type [int] or [str] (a coercion, or a
      [ValidationError]). *)
Class Platform : Type := {
  AgentConfig : Type;
  agent_config : AgentConfig;
  Env : Type;
  agent_init : AgentClass -> AgentConfig -> option string;
  agent_execute :
    AgentClass -> AgentConfig -> string -> option bool -> Env ->
    (string + Outcome) * Env;
  agent_capabilities : AgentClass -> AgentConfig -> list string;
  uuid4 : Env -> string * Env;
  utcnow : Env -> Z * Env;
  db_fault : Env -> option string * Env;
  str_HTTPException : Z -> pyval -> string;
  coerce_int : pyval -> string + Z;
  coerce_str : pyval -> string + string
}.

(** Ghost record of the effects that leave no other mark on the state:
    constructor calls, [logger.error] lines and calls of
    [generate_ai_image]. *)
Inductive Event : Type :=
| EvConstruct (cls : AgentClass)
| EvLogError (line : string)
| EvGenerateImage (prompt aspect_ratio megapixels : string).

Global Instance Event_eq_dec : EqDecision Event.
Proof. solve_decision. Defined.

Section Server.
Context `{P : Platform}.

(** An agent object: an instance of [cls] built from a configuration. *)
Record Agent : Type := mkAgent {
  agent_class : AgentClass;
  agent_cfg : AgentConfig
}.

(** The module globals [search_agent] and [chat_agent], the collection
    [db.wallpapers] in insertion order, the collaborators' state and the
    ghost trace (oldest event first). *)
Record World : Type := mkWorld {
  search_agent : option Agent;
  chat_agent : option Agent;
  wallpapers : list Wallpaper.t;
  env : Env;
  trace : list Event
}.

Definition set_search_agent (a : option Agent) (w : World) : World :=
  mkWorld a (chat_agent w) (wallpapers w) (env w) (trace w).
Definition set_chat_agent (a : option Agent) (w : World) : World :=
  mkWorld (search_agent w) a (wallpapers w) (env w) (trace w).
Definition set_wallpapers (l : list Wallpaper.t) (w : World) : World :=
  mkWorld (search_agent w) (chat_agent w) l (env w) (trace w).
Definition set_env (e : Env) (w : World) : World :=
  mkWorld (search_agent w) (chat_agent w) (wallpapers w) e (trace w).
Definition emit (ev : Event) (w : World) : World :=
  mkWorld (search_agent w) (chat_agent w) (wallpapers w) (env w) (trace w ++ [ev]).

(** ** The monad of handlers *)

Definition M (A : Type) : Type := World -> result A * World.

Definition ret {A} (a : A) : M A := fun w => (Ok a, w).

Definition bind {A B} (m : M A) (k : A -> M B) : M B :=
  fun w =>
    match m w with
    | (Ok a, w') => k a w'
    | (Raise e, w') => (Raise e, w')
    end.

Definition raise {A} (e : exn) : M A := fun w => (Raise e, w).

(** [try: body  except ... as e: handler e]; what the body did to the
    globals before it raised stays done. *)
Definition try_except {A} (body : M A) (handler : exn -> M A) : M A :=
  fun w =>
    match body w with
    | (Ok a, w') => (Ok a, w')
    | (Raise e, w') => handler e w'
    end.

Definition gets {A} (f : World -> A) : M A := fun w => (Ok (f w), w).
Definition modify (f : World -> World) : M unit := fun w => (Ok tt, f w).

(** A call into a collaborator that acts on [Env]. *)
Definition external {A} (f : Env -> (string + A) * Env) : M A :=
  fun w =>
    let '(r, e') := f (env w) in
    (match r with inl msg => Raise (Exception msg) | inr a => Ok a end,
     set_env e' w).

Notation "'do' x <- m ;; k" := (bind m (fun x => k))
  (at level 10, x name, m at level 99, k at level 200, only parsing).
Notation "'run' m ;; k" := (bind m (fun _ => k))
  (at level 10, m at level 99, k at level 200, only parsing).

(** [str(e)] *)
Definition str (e : exn) : string :=
  match e with
  | HTTPException status_code detail => str_HTTPException status_code detail
  | Exception msg => msg
  end.

(** [logger.error(line)] *)
Definition logger_error (line : string) : M unit := modify (emit (EvLogError line)).

(** [cls(agent_config)] *)
Definition new_agent (cls : AgentClass) : M Agent :=
  run modify (emit (EvConstruct cls)) ;;
  match agent_init cls agent_config with
  | Some msg => raise (Exception msg)
  | None => ret (mkAgent cls agent_config)
  end.

(** [await agent.execute(message)] and
    [await agent.execute(message, use_tools=b)] *)
Definition execute (agent : Agent) (message : string) (use_tools : option bool)
  : M Outcome :=
  external (agent_execute (agent_class agent) (agent_cfg agent) message use_tools).

(** [agent.get_capabilities()] *)
Definition get_capabilities (agent : Agent) : list string :=
  agent_capabilities (agent_class agent) (agent_cfg agent).

(** Validation of a field annotated [int], resp. [str]. *)
Definition pydantic_int (v : pyval) : M Z :=
  match v with
  | VInt n => ret n
  | _ => match coerce_int v with
         | inl msg => raise (Exception msg)
         | inr n => ret n
         end
  end.

Definition pydantic_str (v : pyval) : M string :=
  match v with
  | VStr s => ret s
  | _ => match coerce_str v with
         | inl msg => raise (Exception msg)
         | inr s => ret s
         end
  end.

(** Validation of a field annotated [Optional[str]]. *)
Definition pydantic_optional_str (v : pyval) : M (option string) :=
  match v with
  | VNone => ret None
  | _ => do s <- pydantic_str v ;; ret (Some s)
  end.

(** ** POST /chat *)

(** Lines 128-139 of [chat_with_agent]: initialise the agent the request
    names if its global is still [None], select the agent, and refuse a
    [None]. *)
Definition chat_resolve_agent (agent_type : string) : M Agent :=
  do sa <- gets search_agent ;;
  do ca <- gets chat_agent ;;
  run (if String.eqb agent_type "search" && bool_decide (sa = None)
       then do a <- new_agent SearchAgent ;; modify (set_search_agent (Some a))
       else if String.eqb agent_type "chat" && bool_decide (ca = None)
       then do a <- new_agent ChatAgent ;; modify (set_chat_agent (Some a))
       else ret tt) ;;
  do agent <- (if String.eqb agent_type "search"
            then gets search_agent else gets chat_agent) ;;
  match agent with
  | None => raise (HTTPException 500 (VStr "Failed to initialize agent"))
  | Some a => ret a
  end.

Definition chat_with_agent_body (request : ChatRequest.t) : M ChatResponse.t :=
  do agent <- chat_resolve_agent (ChatRequest.agent_type request) ;;
  do response <- execute agent (ChatRequest.message request) None ;;
  ret (ChatResponse.mk
         (success response)
         (content response)
         (ChatRequest.agent_type request)
         (get_capabilities agent)
         (metadata response)
         (error response)).

Definition chat_with_agent (request : ChatRequest.t) : M ChatResponse.t :=
  try_except (chat_with_agent_body request)
    (fun e =>
       run logger_error ("Error in chat endpoint: " +:+ str e) ;;
       ret (ChatResponse.mk false "" (ChatRequest.agent_type request) [] ∅
              (Some (str e)))).

(** ** POST /search *)

(** Lines 170-172 of [search_and_summarize], and the read of the global
    that the call [search_agent.execute] starts with. *)
Definition search_resolve_agent : M Agent :=
  do sa <- gets search_agent ;;
  run (if bool_decide (sa = None)
       then do a <- new_agent SearchAgent ;; modify (set_search_agent (Some a))
       else ret tt) ;;
  do agent <- gets search_agent ;;
  match agent with
  | None => raise (Exception "'NoneType' object has no attribute 'execute'")
  | Some a => ret a
  end.

Definition search_prompt_of (query : string) : string :=
  "Search for information about: " +:+ query +:+
  ". Provide a comprehensive summary with key findings.".

Definition search_and_summarize_body (request : SearchRequest.t)
  : M SearchResponse.t :=
  do agent <- search_resolve_agent ;;
  let search_prompt := search_prompt_of (SearchRequest.query request) in
  do result <- execute agent search_prompt (Some true) ;;
  if success result
  then
    do sources_count <- pydantic_int (dict_get (metadata result) "tools_used" (VInt 0)) ;;
    ret (SearchResponse.mk true (SearchRequest.query request) (content result)
           (Some (metadata result)) sources_count None)
  else
    ret (SearchResponse.mk false (SearchRequest.query request) ""
           None 0 (error result)).

Definition search_and_summarize (request : SearchRequest.t) : M SearchResponse.t :=
  try_except (search_and_summarize_body request)
    (fun e =>
       run logger_error ("Error in search endpoint: " +:+ str e) ;;
       ret (SearchResponse.mk false (SearchRequest.query request) "" None 0
              (Some (str e)))).

(** ** GET /agents/capabilities *)

(** The two dictionaries the handler returns:
    [{"success": True, "capabilities": {"search_agent": .., "chat_agent": ..}}]
    and [{"success": False, "error": ..}]. *)
Inductive CapabilitiesResponse : Type :=
| CapabilitiesOk (search_agent_caps chat_agent_caps : list string)
| CapabilitiesError (error : string).

Definition get_agent_capabilities : M CapabilitiesResponse :=
  try_except
    (do s <- new_agent SearchAgent ;;
     let search_caps := get_capabilities s in
     do c <- new_agent ChatAgent ;;
     let chat_caps := get_capabilities c in
     ret (CapabilitiesOk search_caps chat_caps))
    (fun e =>
       run logger_error ("Error getting capabilities: " +:+ str e) ;;
       ret (CapabilitiesError (str e))).

(** ** The store [db.wallpapers] *)

(** One round trip to the driver: it raises, or lets the operation proceed. *)
Definition db_call : M unit :=
  external (fun e =>
    let '(fault, e') := db_fault e in
    (match fault with Some msg => inl msg | None => inr tt end, e')).

(** [await db.wallpapers.insert_one(doc)]: the collection gets the document
    as the driver encodes it. *)
Definition insert_one (doc : Wallpaper.t) : M unit :=
  run db_call ;;
  modify (fun w => set_wallpapers (wallpapers w ++ [stored_wallpaper doc]) w).

(** [await db.wallpapers.find().sort("created_at", -1).to_list(n)] *)
Definition find_sort_to_list (n : nat) : M (list Wallpaper.t) :=
  run db_call ;;
  gets (fun w => take n (merge_sort created_at_desc (wallpapers w))).

(** [await db.wallpapers.find_one({"id": wallpaper_id})] *)
Definition find_one (wallpaper_id : string) : M (option Wallpaper.t) :=
  run db_call ;;
  gets (fun w =>
    List.find (fun d => String.eqb (Wallpaper.id d) wallpaper_id) (wallpapers w)).

(** ** POST /wallpapers/generate *)

Definition not_configured : string :=
  "AI image generation is not configured. Please set up a real image generation service (e.g., DALL-E, Midjourney, Stable Diffusion) to generate images.".

Definition generate_ai_image (prompt aspect_ratio megapixels : string)
  : M (gmap string pyval) :=
  run modify (emit (EvGenerateImage prompt aspect_ratio megapixels)) ;;
  try_except
    (let enhanced_prompt :=
       "Phone wallpaper, " +:+ prompt +:+
       ", high resolution, vibrant colors, mobile-optimized, stunning visual" in
     ret {[ "success" := VBool false; "error" := VStr not_configured ]})
    (fun e =>
       run logger_error ("Error in AI image generation: " +:+ str e) ;;
       ret {[ "success" := VBool false; "error" := VStr (str e) ]}).

(** [d[k]] *)
Definition dict_item (d : gmap string pyval) (k : string) : M pyval :=
  match d !! k with
  | Some v => ret v
  | None => raise (KeyError k)
  end.

Definition now : M Z := external (fun e => let '(t, e') := utcnow e in (inr t, e')).

(** The [try] block of [generate_wallpaper], with the image generator it
    awaits as a parameter.  A [ValidationError] is described by the first
    field it rejects. *)
Definition generate_wallpaper_body
    (generate : string -> string -> string -> M (gmap string pyval))
    (request : WallpaperRequest.t) : M WallpaperResponse.t :=
  do wallpaper_id <- external (fun e => let '(u, e') := uuid4 e in (inr u, e')) ;;
  do image_result <- generate (WallpaperRequest.prompt request)
                              (WallpaperRequest.aspect_ratio request)
                              (WallpaperRequest.megapixels request) ;;
  do ok <- dict_item image_result "success" ;;
  if negb (truthy ok)
  then
    let error_msg := dict_get image_result "error" (VStr "Failed to generate image") in
    raise (HTTPException 503 error_msg)
  else
    do url <- dict_item image_result "image_url" ;;
    do data <- dict_item image_result "image_data" ;;
    do image_url <- pydantic_str url ;;
    do image_data <- pydantic_str data ;;
    do created_at <- now ;;
    let wallpaper :=
      Wallpaper.mk wallpaper_id (WallpaperRequest.prompt request)
        (WallpaperRequest.aspect_ratio request) image_url image_data created_at in
    run insert_one wallpaper ;;
    do url1 <- dict_item image_result "image_url" ;;
    do url2 <- dict_item image_result "image_url" ;;
    do image_url' <- pydantic_optional_str url1 ;;
    do preview_url' <- pydantic_optional_str url2 ;;
    do created_at' <- now ;;
    ret (WallpaperResponse.mk true wallpaper_id (WallpaperRequest.prompt request)
           image_url' preview_url' created_at' None).

(** [except HTTPException: raise] and
    [except Exception as e: ... raise HTTPException(status_code=500, ...)] *)
Definition generate_wallpaper_with
    (generate : string -> string -> string -> M (gmap string pyval))
    (request : WallpaperRequest.t) : M WallpaperResponse.t :=
  try_except (generate_wallpaper_body generate request)
    (fun e =>
       match e with
       | HTTPException _ _ => raise e
       | Exception _ =>
           run logger_error ("Error generating wallpaper: " +:+ str e) ;;
           raise (HTTPException 500 (VStr (str e)))
       end).

Definition generate_wallpaper (request : WallpaperRequest.t) : M WallpaperResponse.t :=
  generate_wallpaper_with generate_ai_image request.

(** ** GET /wallpapers and GET /wallpapers/{wallpaper_id} *)

Definition response_of (w : Wallpaper.t) : WallpaperResponse.t :=
  WallpaperResponse.mk true (Wallpaper.id w) (Wallpaper.prompt w)
    (Some (Wallpaper.image_url w)) (Some (Wallpaper.image_url w))
    (Wallpaper.created_at w) None.

Definition get_wallpapers : M (list WallpaperResponse.t) :=
  try_except
    (do wallpapers <- find_sort_to_list 100 ;;
     ret (map response_of wallpapers))
    (fun e =>
       run logger_error ("Error getting wallpapers: " +:+ str e) ;;
       ret []).

Definition get_wallpaper (wallpaper_id : string) : M WallpaperResponse.t :=
  try_except
    (do wallpaper <- find_one wallpaper_id ;;
     match wallpaper with
     | None => raise (HTTPException 404 (VStr "Wallpaper not found"))
     | Some w => ret (response_of w)
     end)
    (fun e =>
       run logger_error ("Error getting wallpaper: " +:+ str e) ;;
       raise (HTTPException 500 (VStr (str e)))).

(** ** POST /status and GET /status *)

(** The collection [db.status_checks], in insertion order, is passed in and
    handed back; the driver is asked once per operation on it, as for
    [db.wallpapers].  Neither handler has a [try] block.  The handler
    returns the object it built; the collection gets the document as the
    driver encodes it. *)
Definition create_status_check (input : StatusCheckCreate.t)
    (status_checks : list StatusCheck.t)
  : M (StatusCheck.t * list StatusCheck.t) :=
  do id <- external (fun e => let '(u, e') := uuid4 e in (inr u, e')) ;;
  do timestamp <- now ;;
  let status_obj :=
    StatusCheck.mk id (StatusCheckCreate.client_name input) timestamp in
  run db_call ;;
  ret (status_obj, (status_checks ++ [stored_status_check status_obj])%list).

(** [await db.status_checks.find().to_list(1000)], each document read back
    as a [StatusCheck]. *)
Definition get_status_checks (status_checks : list StatusCheck.t)
  : M (list StatusCheck.t) :=
  run db_call ;;
  ret (take 1000 status_checks).

End Server.

(** ** A scripted platform

    For concrete scenarios: the constructors raise as [init] says, every
    [execute] answers [reply], every store operation raises as [fault]
    says; identifiers and instants are drawn from a counter. *)
Definition scripted (init : AgentClass -> option string)
    (reply : string + Outcome) (fault : option string) : Platform := {|
  AgentConfig := unit;
  agent_config := tt;
  Env := nat;
  agent_init cls _ := init cls;
  agent_execute _ _ _ _ e := (reply, e);
  agent_capabilities cls _ :=
    match cls with
    | SearchAgent => ["web_search"; "summarize"]
    | ChatAgent => ["conversation"]
    end;
  uuid4 e := ("uuid-" +:+ pretty e, S e);
  utcnow e := (Z.of_nat e, S e);
  db_fault e := (fault, e);
  str_HTTPException status_code detail :=
    pretty status_code +:+ ": " +:+
    match detail with VStr s => s | _ => "" end;
  coerce_int _ := inl "value is not a valid integer";
  coerce_str _ := inl "str type expected"
|}.

Definition no_init_fault : AgentClass -> option string := fun _ => None.

(** The state of a freshly started process. *)
Definition initial `{P : Platform} (e : Env) : World := mkWorld None None [] e [].


(** ** Vocabulary of the properties *)

(** The registry slot of a kind of agent, and the [agent_type] that names
    the kind in a chat request. *)
Definition slot `{P : Platform} (cls : AgentClass) (w : World) : option Agent :=
  match cls with
  | SearchAgent => search_agent w
  | ChatAgent => chat_agent w
  end.

Definition agent_type_of (cls : AgentClass) : string :=
  match cls with
  | SearchAgent => "search"
  | ChatAgent => "chat"
  end.

(** The get-or-create step, as the chat dispatcher runs it for a kind and
    as the search dispatcher runs it. *)
Inductive Resolution : Type :=
| ViaChat (cls : AgentClass)
| ViaSearch.

Definition kind_of (r : Resolution) : AgentClass :=
  match r with
  | ViaChat cls => cls
  | ViaSearch => SearchAgent
  end.

Definition resolve `{P : Platform} (r : Resolution) : M Agent :=
  match r with
  | ViaChat cls => chat_resolve_agent (agent_type_of cls)
  | ViaSearch => search_resolve_agent
  end.

(** A request to one of the endpoints, and the state a sequence of them,
    served one after the other, leaves behind. *)
Inductive Call : Type :=
| CallChat (request : ChatRequest.t)
| CallSearch (request : SearchRequest.t)
| CallCapabilities
| CallGenerate (request : WallpaperRequest.t)
| CallList
| CallGet (wallpaper_id : string).

Definition after_call `{P : Platform} (c : Call) (w : World) : World :=
  match c with
  | CallChat request => snd (chat_with_agent request w)
  | CallSearch request => snd (search_and_summarize request w)
  | CallCapabilities => snd (get_agent_capabilities w)
  | CallGenerate request => snd (generate_wallpaper request w)
  | CallList => snd (get_wallpapers w)
  | CallGet wallpaper_id => snd (get_wallpaper wallpaper_id w)
  end.

Definition after_calls `{P : Platform} (cs : list Call) (w : World) : World :=
  fold_left (fun w c => after_call c w) cs w.

(** A computation keeps a relation between the state it starts in and the
    state it ends in. *)
Definition keeps `{P : Platform} (I : World -> World -> Prop) {A} (m : M A) : Prop :=
  forall w, I w (snd (m w)).

(** A slot that holds an agent goes on holding that agent. *)
Definition slots_stay `{P : Platform} (w w' : World) : Prop :=
  forall cls a, slot cls w = Some a -> slot cls w' = Some a.

(** Two states that differ in the ghost trace at most. *)
Definition same_but_trace `{P : Platform} (w1 w2 : World) : Prop :=
  search_agent w1 = search_agent w2 /\
  chat_agent w1 = chat_agent w2 /\
  wallpapers w1 = wallpapers w2 /\
  env w1 = env w2.

(** A computation that does not read the ghost trace: from two such states
    it ends with the same result, in two such states. *)
Definition insensitive `{P : Platform} {A} (m : M A) : Prop :=
  forall w1 w2,
    same_but_trace w1 w2 ->
    fst (m w1) = fst (m w2) /\ same_but_trace (snd (m w1)) (snd (m w2)).

(** A platform on which the agents build and answer a greeting, and the
    store works. *)
Definition demo : Platform :=
  scripted no_init_fault (inr (mkOutcome true "Hello!" ∅ None)) None.

(** Platforms on which the agent's search used three tools, and on which
    it reports a timeout (scenario 2 of the specification). *)
Definition found : Platform :=
  scripted no_init_fault
    (inr (mkOutcome true "Ownership moves values." {[ "tools_used" := VInt 3 ]} None))
    None.

Definition timed_out : Platform :=
  scripted no_init_fault (inr (mkOutcome false "" ∅ (Some "timeout"))) None.

(** The invariant the specification states for an envelope: a failed one
    has an empty payload and a non-empty error, a successful one has an
    empty error ([None] or the empty string). *)
Definition is_empty (error : option string) : bool :=
  match error with
  | None => true
  | Some s => String.eqb s ""
  end.

Definition envelope_invariant (success : bool) (payload : string)
    (error : option string) : bool :=
  if success then is_empty error
  else String.eqb payload "" && negb (is_empty error).

(** An outcome that some call of [execute] returns. *)
Definition returned_by_agent `{P : Platform} (o : Outcome) : Prop :=
  exists cls cfg message use_tools e e',
    agent_execute cls cfg message use_tools e = (inr o, e').

(** The exceptions that the [try] blocks of the two dispatchers can raise:
    from a constructor, from [execute], from the validation of
    [sources_count], and the two raised on an agent that is [None]. *)
Inductive dispatch_fault `{P : Platform} : exn -> Prop :=
| fault_init cls msg :
    agent_init cls agent_config = Some msg -> dispatch_fault (Exception msg)
| fault_execute cls cfg message use_tools e msg e' :
    agent_execute cls cfg message use_tools e = (inl msg, e') ->
    dispatch_fault (Exception msg)
| fault_validation v msg :
    coerce_int v = inl msg -> dispatch_fault (Exception msg)
| fault_uninitialised :
    dispatch_fault (HTTPException 500 (VStr "Failed to initialize agent"))
| fault_none :
    dispatch_fault (Exception "'NoneType' object has no attribute 'execute'").

Definition outcomes_satisfy_invariant `{P : Platform} : Prop :=
  forall o, returned_by_agent o ->
    envelope_invariant (success o) (content o) (error o) = true.

Definition faults_are_described `{P : Platform} : Prop :=
  forall e, dispatch_fault e -> str e <> "".

(** A platform on which the agent reports failure with part of an answer
    and no error. *)
Definition half_answer : Platform :=
  scripted no_init_fault (inr (mkOutcome false "partial answer" ∅ None)) None.

(** How a handler's end reads as an HTTP response: a caller error (4xx),
    the generic internal error (500). *)
Definition caller_error {A} (r : result A) : bool :=
  match r with
  | Raise (HTTPException status_code _) => (400 <=? status_code)%Z && (status_code <? 500)%Z
  | _ => false
  end.

Definition internal_error {A} (r : result A) : bool :=
  match r with
  | Raise (HTTPException status_code _) => (status_code =? 500)%Z
  | _ => false
  end.

(** The calls of [generate_ai_image] a state has seen. *)
Definition generator_calls `{P : Platform} (w : World) : list Event :=
  List.filter
    (fun ev => match ev with EvGenerateImage _ _ _ => true | _ => false end)
    (trace w).

(** The state in which [generate_wallpaper] calls the generator: an
    identifier has been drawn. *)
Definition identified `{P : Platform} (w : World) : World :=
  set_env (snd (uuid4 (env w))) w.

(** A platform whose store is out of reach. *)
Definition store_down : Platform :=
  scripted no_init_fault (inr (mkOutcome true "Hello!" ∅ None))
    (Some "connection refused").

(** Two image generators for scenarios: one that raises, one that succeeds. *)
Definition failing_generator `{P : Platform} (msg : string)
  : string -> string -> string -> M (gmap string pyval) :=
  fun _ _ _ => raise (Exception msg).

Definition working_generator `{P : Platform}
  : string -> string -> string -> M (gmap string pyval) :=
  fun _ _ _ =>
    ret {[ "success" := VBool true;
           "image_url" := VStr "https://images.example/1.png";
           "image_data" := VStr "iVBORw0KGgo=" ]}.

(** Three generations created at instants 1 < 2 < 3, in insertion order. *)
Definition three_wallpapers : list Wallpaper.t :=
  [ Wallpaper.mk "a" "ocean" "9:16" "u1" "d1" 1;
    Wallpaper.mk "b" "forest" "9:16" "u2" "d2" 2;
    Wallpaper.mk "c" "desert" "9:16" "u3" "d3" 3 ].

(** Strictly descending by [created_at], on responses and on documents. *)
Definition strictly_newer (x y : WallpaperResponse.t) : Prop :=
  (WallpaperResponse.created_at y < WallpaperResponse.created_at x)%Z.

Definition created_strictly_after (x y : Wallpaper.t) : Prop :=
  (Wallpaper.created_at y < Wallpaper.created_at x)%Z.

(** The constructor calls for a class that a state has seen, and the calls
    still to come at most: one more while the slot is empty. *)
Definition constructions `{P : Platform} (cls : AgentClass) (w : World) : nat :=
  length (List.filter (fun ev => bool_decide (ev = EvConstruct cls)) (trace w)).

Definition construction_budget `{P : Platform} (cls : AgentClass) (w : World) : nat :=
  (constructions cls w + match slot cls w with Some _ => 0 | None => 1 end)%nat.

Definition budget_kept `{P : Platform} (cls : AgentClass) (w w' : World) : Prop :=
  (construction_budget cls w' <= construction_budget cls w)%nat.

(** The requests that go through a dispatcher. *)
Definition dispatches (c : Call) : bool :=
  match c with
  | CallChat _ | CallSearch _ => true
  | _ => false
  end.

(** The store and the agent globals are as they were. *)
Definition store_kept `{P : Platform} (w w' : World) : Prop :=
  wallpapers w' = wallpapers w.

Definition slots_kept `{P : Platform} (w w' : World) : Prop :=
  search_agent w' = search_agent w /\ chat_agent w' = chat_agent w.

(** A platform whose chat agent cannot be built. *)
Definition no_chat_key : Platform :=
  scripted (fun cls => match cls with
                       | ChatAgent => Some "missing API key"
                       | SearchAgent => None
                       end)
    (inr (mkOutcome true "Hello!" ∅ None)) None.

(** A platform on which the search succeeds with a tool count that is not
    an integer. *)
Definition many_tools : Platform :=
  scripted no_init_fault
    (inr (mkOutcome true "Ownership moves values." {[ "tools_used" := VStr "many" ]} None))
    None.

(** Descending by [created_at], instants that are equal allowed. *)
Definition not_older (x y : WallpaperResponse.t) : Prop :=
  (WallpaperResponse.created_at y <= WallpaperResponse.created_at x)%Z.

(** The lines [logger.error] has written, oldest first. *)
Definition log_lines `{P : Platform} (w : World) : list string :=
  omap (fun ev => match ev with EvLogError line => Some line | _ => None end)
    (trace w).

Definition log_kept `{P : Platform} (w w' : World) : Prop :=
  log_lines w' = log_lines w.

(** A clock that reads 1700000000920726 microseconds at the insert and one
    microsecond more at each later reading. *)
Definition late_2023 : Platform := {|
  AgentConfig := unit;
  agent_config := tt;
  Env := Z;
  agent_init _ _ := None;
  agent_execute _ _ _ _ e := (inr (mkOutcome true "Hello!" ∅ None), e);
  agent_capabilities _ _ := [];
  uuid4 e := ("6f1c", e);
  utcnow e := ((1700000000920726 + e)%Z, (e + 1)%Z);
  db_fault e := (None, e);
  str_HTTPException status_code detail := pretty status_code;
  coerce_int _ := inl "value is not a valid integer";
  coerce_str _ := inl "str type expected"
|}.

(** ** Keeping a relation: the monad's combinators *)

Section Keeps.
Context `{P : Platform}.
Variable I : World -> World -> Prop.
Hypothesis I_refl : forall w, I w w.
Hypothesis I_trans : forall w1 w2 w3, I w1 w2 -> I w2 w3 -> I w1 w3.

Lemma keeps_ret {A} (a : A) : keeps I (ret a).
Proof. intros w. apply I_refl. Qed.

Lemma keeps_raise {A} (e : exn) : keeps I (@raise _ A e).
Proof. intros w. apply I_refl. Qed.

Lemma keeps_gets {A} (f : World -> A) : keeps I (gets f).
Proof. intros w. apply I_refl. Qed.

Lemma keeps_modify (f : World -> World) :
  (forall w, I w (f w)) -> keeps I (modify f).
Proof. intros Hf w. apply Hf. Qed.

Lemma keeps_external {A} (f : Env -> (string + A) * Env) :
  (forall w e, I w (set_env e w)) -> keeps I (external f).
Proof.
  intros Hf w. unfold external.
  destruct (f (env w)) as [r e']. apply Hf.
Qed.

Lemma keeps_bind {A B} (m : M A) (k : A -> M B) :
  keeps I m -> (forall a, keeps I (k a)) -> keeps I (bind m k).
Proof.
  intros Hm Hk w. unfold bind.
  specialize (Hm w). destruct (m w) as [[a|e] w']; simpl in *.
  - eapply I_trans; [exact Hm | apply Hk].
  - exact Hm.
Qed.

Lemma keeps_try_except {A} (body : M A) (handler : exn -> M A) :
  keeps I body -> (forall e, keeps I (handler e)) -> keeps I (try_except body handler).
Proof.
  intros Hb Hh w. unfold try_except.
  specialize (Hb w). destruct (body w) as [[a|e] w']; simpl in *.
  - exact Hb.
  - eapply I_trans; [exact Hb | apply Hh].
Qed.

End Keeps.

(** ** The registry slots *)

Section Registry.
Context `{P : Platform}.

Lemma slots_stay_refl (w : World) : slots_stay w w.
Proof. intros cls a H. exact H. Qed.

Lemma slots_stay_trans (w1 w2 w3 : World) :
  slots_stay w1 w2 -> slots_stay w2 w3 -> slots_stay w1 w3.
Proof. intros H12 H23 cls a H. apply H23, H12, H. Qed.

Lemma slots_stay_set_env (w : World) (e : Env) : slots_stay w (set_env e w).
Proof. intros [|] a H; exact H. Qed.

Lemma slots_stay_emit (ev : Event) (w : World) : slots_stay w (emit ev w).
Proof. intros [|] a H; exact H. Qed.

Lemma slots_stay_set_wallpapers (l : list Wallpaper.t) (w : World) :
  slots_stay w (set_wallpapers l w).
Proof. intros [|] a H; exact H. Qed.

Lemma slots_stay_fill_search (a : Agent) (w : World) :
  search_agent w = None -> slots_stay w (set_search_agent (Some a) w).
Proof. intros Hnone [|] b H; simpl in *; [congruence | exact H]. Qed.

Lemma slots_stay_fill_chat (a : Agent) (w : World) :
  chat_agent w = None -> slots_stay w (set_chat_agent (Some a) w).
Proof. intros Hnone [|] b H; simpl in *; [exact H | congruence]. Qed.

(** What a constructor call does to the state. *)
Lemma new_agent_run (cls : AgentClass) (w : World) :
  new_agent cls w =
  (match agent_init cls agent_config with
   | Some msg => Raise (Exception msg)
   | None => Ok (mkAgent cls agent_config)
   end, emit (EvConstruct cls) w).
Proof.
  unfold new_agent, bind, modify, raise, ret.
  destruct (agent_init cls agent_config); reflexivity.
Qed.

Lemma keeps_slots_new_agent (cls : AgentClass) : keeps slots_stay (new_agent cls).
Proof. intros w. rewrite new_agent_run. apply slots_stay_emit. Qed.

Lemma keeps_slots_logger_error (line : string) : keeps slots_stay (logger_error line).
Proof. intros w. apply slots_stay_emit. Qed.

Lemma keeps_slots_external {A} (f : Env -> (string + A) * Env) :
  keeps slots_stay (external f).
Proof. apply keeps_external. intros w e. apply slots_stay_set_env. Qed.

(** The get-or-create step of the chat dispatcher assigns a global only
    when it is [None]. *)
Lemma keeps_slots_chat_resolve_agent (agent_type : string) :
  keeps slots_stay (chat_resolve_agent agent_type).
Proof.
  intros w. unfold chat_resolve_agent, bind, gets, modify, ret, raise. simpl.
  destruct (String.eqb_spec agent_type "search") as [->|Hs]; simpl.
  - destruct (search_agent w) as [a|] eqn:Hsa; simpl.
    + rewrite Hsa. apply slots_stay_refl.
    + rewrite new_agent_run.
      destruct (agent_init SearchAgent agent_config); simpl.
      * apply slots_stay_emit.
      * eapply slots_stay_trans; [apply slots_stay_emit |].
        apply slots_stay_fill_search. exact Hsa.
  - destruct (String.eqb_spec agent_type "chat") as [->|Hc]; simpl.
    + destruct (chat_agent w) as [a|] eqn:Hca; simpl.
      * rewrite Hca. apply slots_stay_refl.
      * rewrite new_agent_run.
        destruct (agent_init ChatAgent agent_config); simpl.
        -- apply slots_stay_emit.
        -- eapply slots_stay_trans; [apply slots_stay_emit |].
           apply slots_stay_fill_chat. exact Hca.
    + destruct (chat_agent w); apply slots_stay_refl.
Qed.

Lemma keeps_slots_search_resolve_agent : keeps slots_stay search_resolve_agent.
Proof.
  intros w. unfold search_resolve_agent, bind, gets, modify, ret, raise. simpl.
  destruct (search_agent w) as [a|] eqn:Hsa; simpl.
  - rewrite Hsa. apply slots_stay_refl.
  - rewrite new_agent_run.
    destruct (agent_init SearchAgent agent_config); simpl.
    + apply slots_stay_emit.
    + eapply slots_stay_trans; [apply slots_stay_emit |].
      apply slots_stay_fill_search. exact Hsa.
Qed.

Ltac keeps_slots_step :=
  lazymatch goal with
  | |- keeps _ (bind _ _) => apply (keeps_bind _ slots_stay_trans); [| intros ?]
  | |- keeps _ (try_except _ _) =>
      apply (keeps_try_except _ slots_stay_trans); [| intros ?]
  | |- keeps _ (ret _) => apply (keeps_ret _ slots_stay_refl)
  | |- keeps _ (raise _) => apply (keeps_raise _ slots_stay_refl)
  | |- keeps _ (gets _) => apply (keeps_gets _ slots_stay_refl)
  | |- keeps _ (external _) => apply keeps_slots_external
  | |- keeps _ (execute _ _ _) => apply keeps_slots_external
  | |- keeps _ (logger_error _) => apply keeps_slots_logger_error
  | |- keeps _ (new_agent _) => apply keeps_slots_new_agent
  | |- keeps _ (chat_resolve_agent _) => apply keeps_slots_chat_resolve_agent
  | |- keeps _ search_resolve_agent => apply keeps_slots_search_resolve_agent
  | |- keeps _ (modify _) =>
      apply keeps_modify; intros ?;
      first [apply slots_stay_emit | apply slots_stay_set_wallpapers]
  | |- keeps _ (match ?x with _ => _ end) => destruct x
  end.

Ltac keeps_slots := cbv zeta; repeat keeps_slots_step.

Lemma keeps_slots_chat_with_agent (request : ChatRequest.t) :
  keeps slots_stay (chat_with_agent request).
Proof. unfold chat_with_agent, chat_with_agent_body. keeps_slots. Qed.

Lemma keeps_slots_search_and_summarize (request : SearchRequest.t) :
  keeps slots_stay (search_and_summarize request).
Proof.
  unfold search_and_summarize, search_and_summarize_body, pydantic_int.
  keeps_slots.
Qed.

Lemma keeps_slots_get_agent_capabilities : keeps slots_stay get_agent_capabilities.
Proof. unfold get_agent_capabilities. keeps_slots. Qed.

Lemma keeps_slots_generate_ai_image (prompt aspect_ratio megapixels : string) :
  keeps slots_stay (generate_ai_image prompt aspect_ratio megapixels).
Proof. unfold generate_ai_image. keeps_slots. Qed.

Lemma keeps_slots_generate_wallpaper (request : WallpaperRequest.t) :
  keeps slots_stay (generate_wallpaper request).
Proof.
  unfold generate_wallpaper, generate_wallpaper_with, generate_wallpaper_body,
    insert_one, db_call, now, dict_item, pydantic_optional_str, pydantic_str.
  keeps_slots. apply keeps_slots_generate_ai_image.
Qed.

Lemma keeps_slots_get_wallpapers : keeps slots_stay get_wallpapers.
Proof. unfold get_wallpapers, find_sort_to_list, db_call. keeps_slots. Qed.

Lemma keeps_slots_get_wallpaper (wallpaper_id : string) :
  keeps slots_stay (get_wallpaper wallpaper_id).
Proof. unfold get_wallpaper, find_one, db_call. keeps_slots. Qed.

(** No endpoint clears or replaces a filled slot. *)
Lemma slots_stay_after_call (c : Call) (w : World) : slots_stay w (after_call c w).
Proof.
  destruct c; simpl.
  - apply keeps_slots_chat_with_agent.
  - apply keeps_slots_search_and_summarize.
  - apply keeps_slots_get_agent_capabilities.
  - apply keeps_slots_generate_wallpaper.
  - apply keeps_slots_get_wallpapers.
  - apply keeps_slots_get_wallpaper.
Qed.

Lemma slots_stay_after_calls (cs : list Call) (w : World) :
  slots_stay w (after_calls cs w).
Proof.
  revert w. induction cs as [|c cs IH]; intros w; simpl.
  - apply slots_stay_refl.
  - eapply slots_stay_trans; [apply slots_stay_after_call | apply IH].
Qed.

(** With the slot filled, the get-or-create step returns what the slot holds
    and changes nothing. *)
Lemma resolve_filled (r : Resolution) (a : Agent) (w : World) :
  slot (kind_of r) w = Some a -> resolve r w = (Ok a, w).
Proof.
  destruct r as [[|]|]; simpl; intros H;
    unfold chat_resolve_agent, search_resolve_agent, bind, gets, ret; simpl;
    rewrite ?H; simpl; rewrite ?H; reflexivity.
Qed.

(** With the slot empty and a constructor that does not raise, it builds the
    agent from [agent_config], stores it and returns it. *)
Lemma resolve_empty (r : Resolution) (w : World) :
  slot (kind_of r) w = None ->
  agent_init (kind_of r) agent_config = None ->
  resolve r w =
  (Ok (mkAgent (kind_of r) agent_config),
   match kind_of r with
   | SearchAgent =>
       set_search_agent (Some (mkAgent SearchAgent agent_config))
         (emit (EvConstruct SearchAgent) w)
   | ChatAgent =>
       set_chat_agent (Some (mkAgent ChatAgent agent_config))
         (emit (EvConstruct ChatAgent) w)
   end).
Proof.
  destruct r as [[|]|]; simpl; intros H Hinit;
    unfold chat_resolve_agent, search_resolve_agent, bind, gets, modify, ret; simpl;
    rewrite ?H; simpl; rewrite new_agent_run, Hinit; reflexivity.
Qed.

End Registry.

(** ** Computations that do not read the ghost trace *)

Section Insensitive.
Context `{P : Platform}.

Lemma same_but_trace_refl (w : World) : same_but_trace w w.
Proof. repeat split. Qed.

Lemma same_but_trace_trans (w1 w2 w3 : World) :
  same_but_trace w1 w2 -> same_but_trace w2 w3 -> same_but_trace w1 w3.
Proof.
  intros (Hs & Hc & Hw & He) (Hs' & Hc' & Hw' & He').
  repeat split; congruence.
Qed.

Lemma same_but_trace_sym (w1 w2 : World) : same_but_trace w1 w2 -> same_but_trace w2 w1.
Proof. intros (Hs & Hc & Hw & He). repeat split; congruence. Qed.

Lemma same_but_trace_emit (ev : Event) (w : World) : same_but_trace w (emit ev w).
Proof. repeat split. Qed.

Lemma insensitive_ret {A} (a : A) : insensitive (ret a).
Proof. intros w1 w2 H. split; [reflexivity | exact H]. Qed.

Lemma insensitive_raise {A} (e : exn) : insensitive (@raise _ A e).
Proof. intros w1 w2 H. split; [reflexivity | exact H]. Qed.

Lemma insensitive_gets {A} (f : World -> A) :
  (forall w1 w2, same_but_trace w1 w2 -> f w1 = f w2) -> insensitive (gets f).
Proof. intros Hf w1 w2 H. split; [simpl; f_equal; apply Hf, H | exact H]. Qed.

Lemma insensitive_modify (f : World -> World) :
  (forall w1 w2, same_but_trace w1 w2 -> same_but_trace (f w1) (f w2)) ->
  insensitive (modify f).
Proof. intros Hf w1 w2 H. split; [reflexivity | apply Hf, H]. Qed.

Lemma insensitive_external {A} (f : Env -> (string + A) * Env) :
  insensitive (external f).
Proof.
  intros w1 w2 (Hs & Hc & Hw & He). unfold external. rewrite He.
  destruct (f (env w2)) as [r e']. split; [reflexivity |].
  repeat split; simpl; assumption.
Qed.

Lemma insensitive_bind {A B} (m : M A) (k : A -> M B) :
  insensitive m -> (forall a, insensitive (k a)) -> insensitive (bind m k).
Proof.
  intros Hm Hk w1 w2 H. unfold bind.
  destruct (Hm w1 w2 H) as [Hr Hw].
  destruct (m w1) as [r1 w1'], (m w2) as [r2 w2']; simpl in *; subst r2.
  destruct r1 as [a|e]; [apply Hk, Hw | split; [reflexivity | exact Hw]].
Qed.

Lemma insensitive_try_except {A} (body : M A) (handler : exn -> M A) :
  insensitive body -> (forall e, insensitive (handler e)) ->
  insensitive (try_except body handler).
Proof.
  intros Hb Hh w1 w2 H. unfold try_except.
  destruct (Hb w1 w2 H) as [Hr Hw].
  destruct (body w1) as [r1 w1'], (body w2) as [r2 w2']; simpl in *; subst r2.
  destruct r1 as [a|e]; [split; [reflexivity | exact Hw] | apply Hh, Hw].
Qed.

Ltac insensitive_step :=
  lazymatch goal with
  | |- insensitive (bind _ _) => apply insensitive_bind; [| intros ?]
  | |- insensitive (try_except _ _) => apply insensitive_try_except; [| intros ?]
  | |- insensitive (ret _) => apply insensitive_ret
  | |- insensitive (raise _) => apply insensitive_raise
  | |- insensitive (external _) => apply insensitive_external
  | |- insensitive (gets _) =>
      apply insensitive_gets; intros ? ? (? & ? & ? & ?); congruence
  | |- insensitive (modify _) =>
      apply insensitive_modify; intros ? ? (? & ? & ? & ?);
      repeat split; simpl; congruence
  | |- insensitive (match ?x with _ => _ end) => destruct x
  end.

Ltac insensitive_tac := cbv zeta; repeat insensitive_step.

Lemma insensitive_chat_with_agent (request : ChatRequest.t) :
  insensitive (chat_with_agent request).
Proof.
  unfold chat_with_agent, chat_with_agent_body, chat_resolve_agent, new_agent,
    execute, logger_error.
  insensitive_tac.
Qed.

Lemma insensitive_search_and_summarize (request : SearchRequest.t) :
  insensitive (search_and_summarize request).
Proof.
  unfold search_and_summarize, search_and_summarize_body, search_resolve_agent,
    new_agent, execute, logger_error, pydantic_int.
  insensitive_tac.
Qed.

Lemma insensitive_get_agent_capabilities : insensitive get_agent_capabilities.
Proof.
  unfold get_agent_capabilities, new_agent, logger_error. insensitive_tac.
Qed.

(** The introspection endpoint changes the ghost trace and nothing else. *)
Lemma keeps_same_get_agent_capabilities : keeps same_but_trace get_agent_capabilities.
Proof.
  unfold get_agent_capabilities, new_agent, logger_error.
  cbv zeta.
  repeat lazymatch goal with
  | |- keeps _ (bind _ _) => apply (keeps_bind _ same_but_trace_trans); [| intros ?]
  | |- keeps _ (try_except _ _) =>
      apply (keeps_try_except _ same_but_trace_trans); [| intros ?]
  | |- keeps _ (ret _) => apply (keeps_ret _ same_but_trace_refl)
  | |- keeps _ (raise _) => apply (keeps_raise _ same_but_trace_refl)
  | |- keeps _ (modify (emit _)) =>
      apply keeps_modify; intros ?; apply same_but_trace_emit
  | |- keeps _ (match ?x with _ => _ end) => destruct x
  end.
Qed.

Lemma same_but_trace_capabilities_calls (n : nat) (w : World) :
  same_but_trace w (after_calls (replicate n CallCapabilities) w).
Proof.
  revert w. induction n as [|n IH]; intros w; simpl.
  - apply same_but_trace_refl.
  - eapply same_but_trace_trans; [apply keeps_same_get_agent_capabilities | apply IH].
Qed.

End Insensitive.

(** C9: after any number of calls of the introspection endpoint the two
    registry slots hold what they held before (an agent it builds is never
    assigned to a global), the state differs from the one before in the
    ghost trace only, a further call returns the same answer as a call in
    the state before, and a chat or search request is answered the same and
    leaves the same state (up to the ghost trace) as in the state before. *)
Theorem capabilities_leave_registry `{P : Platform} (n : nat) (w : World) :
  let w' := after_calls (replicate n CallCapabilities) w in
  search_agent w' = search_agent w /\
  chat_agent w' = chat_agent w /\
  same_but_trace w w' /\
  fst (get_agent_capabilities w') = fst (get_agent_capabilities w) /\
  (forall request,
     fst (chat_with_agent request w') = fst (chat_with_agent request w) /\
     same_but_trace (snd (chat_with_agent request w)) (snd (chat_with_agent request w'))) /\
  (forall request,
     fst (search_and_summarize request w') = fst (search_and_summarize request w) /\
     same_but_trace (snd (search_and_summarize request w))
       (snd (search_and_summarize request w'))).
Proof.
  intros w'.
  pose proof (same_but_trace_capabilities_calls n w) as Hsame. fold w' in Hsame.
  destruct Hsame as (Hs & Hc & Hw & He).
  assert (Hsame : same_but_trace w w') by (repeat split; assumption).
  split; [symmetry; exact Hs |].
  split; [symmetry; exact Hc |].
  split; [exact Hsame |].
  split.
  { symmetry. apply insensitive_get_agent_capabilities, Hsame. }
  split; intros request.
  - destruct (insensitive_chat_with_agent request w w' Hsame) as [Hr Hw'].
    split; [symmetry; exact Hr | exact Hw'].
  - destruct (insensitive_search_and_summarize request w w' Hsame) as [Hr Hw'].
    split; [symmetry; exact Hr | exact Hw'].
Qed.

(** C8: for each kind of agent, the first get-or-create step of a dispatcher
    (the slot is empty; the constructor returns) builds the agent of that
    kind from the shared [agent_config], stores it in the kind's slot and
    returns it, with one constructor call; after any sequence of later
    requests to the endpoints the slot still holds that agent, and a
    get-or-create step for the kind, through either dispatcher, returns it
    and leaves the state as it is: no constructor call, no assignment. *)
Theorem registry_get_or_create `{P : Platform} (r : Resolution) (w : World) :
  slot (kind_of r) w = None ->
  agent_init (kind_of r) agent_config = None ->
  exists w1,
    resolve r w = (Ok (mkAgent (kind_of r) agent_config), w1) /\
    slot (kind_of r) w1 = Some (mkAgent (kind_of r) agent_config) /\
    trace w1 = (trace w ++ [EvConstruct (kind_of r)])%list /\
    forall (cs : list Call) (r' : Resolution),
      kind_of r' = kind_of r ->
      slot (kind_of r) (after_calls cs w1) = Some (mkAgent (kind_of r) agent_config) /\
      resolve r' (after_calls cs w1) =
        (Ok (mkAgent (kind_of r) agent_config), after_calls cs w1).
Proof.
  intros Hempty Hinit.
  eexists. split; [apply resolve_empty; assumption |].
  assert (Hfilled :
    slot (kind_of r)
      match kind_of r with
      | SearchAgent =>
          set_search_agent (Some (mkAgent SearchAgent agent_config))
            (emit (EvConstruct SearchAgent) w)
      | ChatAgent =>
          set_chat_agent (Some (mkAgent ChatAgent agent_config))
            (emit (EvConstruct ChatAgent) w)
      end = Some (mkAgent (kind_of r) agent_config)).
  { destruct (kind_of r); reflexivity. }
  split; [exact Hfilled |].
  split; [destruct (kind_of r); reflexivity |].
  intros cs r' Hkind.
  pose proof (slots_stay_after_calls cs _ _ _ Hfilled) as Hlater.
  split; [exact Hlater |].
  apply resolve_filled. rewrite Hkind. exact Hlater.
Qed.

Lemma registry_get_or_create_witness :
  exists w1 : @World demo,
    @resolve demo (ViaChat ChatAgent) (@initial demo 0%nat) =
      (Ok (@mkAgent demo ChatAgent tt), w1) /\
    slot ChatAgent w1 = Some (@mkAgent demo ChatAgent tt) /\
    trace w1 = [EvConstruct ChatAgent] /\
    forall (cs : list Call) (r' : Resolution),
      kind_of r' = ChatAgent ->
      slot ChatAgent (after_calls cs w1) = Some (@mkAgent demo ChatAgent tt) /\
      resolve r' (after_calls cs w1) =
        (Ok (@mkAgent demo ChatAgent tt), after_calls cs w1).
Proof.
  apply (@registry_get_or_create demo (ViaChat ChatAgent) (@initial demo 0%nat));
    reflexivity.
Defined.

(** ** POST /search: the envelope *)

Lemma execute_run `{P : Platform} (a : Agent) (message : string)
    (use_tools : option bool) (w : World) :
  execute a message use_tools w =
  (match fst (agent_execute (agent_class a) (agent_cfg a) message use_tools (env w)) with
   | inl msg => Raise (Exception msg)
   | inr o => Ok o
   end,
   set_env (snd (agent_execute (agent_class a) (agent_cfg a) message use_tools (env w))) w).
Proof.
  unfold execute, external.
  destruct (agent_execute _ _ _ _ _) as [r e']. reflexivity.
Qed.

(** C6: when the search agent is resolved and its [execute], called with the
    search prompt and tools enabled, returns an outcome: if the outcome
    reports success, the envelope has [success = true], [summary] the
    outcome's content, [search_results] the outcome's metadata and
    [sources_count] the integer under [tools_used] in the metadata, or 0
    when the metadata has no such key; if it reports failure, the envelope
    has [success = false], an empty [summary], [sources_count = 0] and the
    outcome's [error]. *)
Theorem search_envelope `{P : Platform} (request : SearchRequest.t) (w w1 : World)
    (a : Agent) (o : Outcome) (e2 : Env) :
  search_resolve_agent w = (Ok a, w1) ->
  agent_execute (agent_class a) (agent_cfg a)
    (search_prompt_of (SearchRequest.query request)) (Some true) (env w1) = (inr o, e2) ->
  (success o = true ->
   forall n, metadata o !! "tools_used" = Some (VInt n) ->
   search_and_summarize request w =
   (Ok (SearchResponse.mk true (SearchRequest.query request) (content o)
          (Some (metadata o)) n None), set_env e2 w1)) /\
  (success o = true ->
   metadata o !! "tools_used" = None ->
   search_and_summarize request w =
   (Ok (SearchResponse.mk true (SearchRequest.query request) (content o)
          (Some (metadata o)) 0 None), set_env e2 w1)) /\
  (success o = false ->
   search_and_summarize request w =
   (Ok (SearchResponse.mk false (SearchRequest.query request) "" None 0 (error o)),
    set_env e2 w1)).
Proof.
  intros Hres Hexec.
  assert (Hbody : forall k : Outcome -> M SearchResponse.t,
    bind search_resolve_agent
      (fun agent => bind (execute agent (search_prompt_of (SearchRequest.query request))
                            (Some true)) k) w = k o (set_env e2 w1)).
  { intros k. unfold bind at 1. rewrite Hres. unfold bind.
    rewrite execute_run, Hexec. reflexivity. }
  unfold search_and_summarize, try_except, search_and_summarize_body.
  cbv zeta. rewrite Hbody.
  split; [| split].
  - intros Hok n Hn. rewrite Hok. unfold dict_get. rewrite Hn. reflexivity.
  - intros Hok Hn. rewrite Hok. unfold dict_get. rewrite Hn. reflexivity.
  - intros Hko. rewrite Hko. reflexivity.
Qed.

Lemma search_envelope_witness :
  @search_and_summarize found (SearchRequest.mk "rust ownership" 3) (@initial found 0%nat) =
    (Ok (SearchResponse.mk true "rust ownership" "Ownership moves values."
           (Some {[ "tools_used" := VInt 3 ]}) 3 None),
     @mkWorld found (Some (@mkAgent found SearchAgent tt)) None [] 0%nat
       [EvConstruct SearchAgent]) /\
  @search_and_summarize demo (SearchRequest.mk "rust ownership" 3) (@initial demo 0%nat) =
    (Ok (SearchResponse.mk true "rust ownership" "Hello!" (Some ∅) 0 None),
     @mkWorld demo (Some (@mkAgent demo SearchAgent tt)) None [] 0%nat
       [EvConstruct SearchAgent]) /\
  @search_and_summarize timed_out (SearchRequest.mk "rust ownership" 3)
    (@initial timed_out 0%nat) =
    (Ok (SearchResponse.mk false "rust ownership" "" None 0 (Some "timeout")),
     @mkWorld timed_out (Some (@mkAgent timed_out SearchAgent tt)) None [] 0%nat
       [EvConstruct SearchAgent]).
Proof.
  split; [| split].
  - apply (proj1 (@search_envelope found (SearchRequest.mk "rust ownership" 3)
                    (@initial found 0%nat)
                    (@mkWorld found (Some (@mkAgent found SearchAgent tt)) None [] 0%nat
                       [EvConstruct SearchAgent])
                    (@mkAgent found SearchAgent tt)
                    (mkOutcome true "Ownership moves values."
                       {[ "tools_used" := VInt 3 ]} None)
                    0%nat eq_refl eq_refl));
      reflexivity.
  - apply (proj1 (proj2 (@search_envelope demo (SearchRequest.mk "rust ownership" 3)
                    (@initial demo 0%nat)
                    (@mkWorld demo (Some (@mkAgent demo SearchAgent tt)) None [] 0%nat
                       [EvConstruct SearchAgent])
                    (@mkAgent demo SearchAgent tt)
                    (mkOutcome true "Hello!" ∅ None)
                    0%nat eq_refl eq_refl)));
      reflexivity.
  - apply (proj2 (proj2 (@search_envelope timed_out (SearchRequest.mk "rust ownership" 3)
                    (@initial timed_out 0%nat)
                    (@mkWorld timed_out (Some (@mkAgent timed_out SearchAgent tt)) None []
                       0%nat [EvConstruct SearchAgent])
                    (@mkAgent timed_out SearchAgent tt)
                    (mkOutcome false "" ∅ (Some "timeout"))
                    0%nat eq_refl eq_refl)));
      reflexivity.
Defined.

(** ** POST /chat and POST /search: what the envelopes hold *)

Section Envelopes.
Context `{P : Platform}.

Lemma chat_resolve_agent_raises (agent_type : string) (w w' : World) (e : exn) :
  chat_resolve_agent agent_type w = (Raise e, w') -> dispatch_fault e.
Proof.
  unfold chat_resolve_agent, bind, gets, modify, ret, raise. simpl.
  destruct (String.eqb_spec agent_type "search") as [->|Hs]; simpl.
  - destruct (search_agent w) as [a|] eqn:Hsa; simpl.
    + rewrite Hsa. discriminate.
    + rewrite new_agent_run.
      destruct (agent_init SearchAgent agent_config) eqn:Hinit; simpl.
      * intros [= <- _]. eapply fault_init, Hinit.
      * discriminate.
  - destruct (String.eqb_spec agent_type "chat") as [->|Hc]; simpl.
    + destruct (chat_agent w) as [a|] eqn:Hca; simpl.
      * rewrite Hca. discriminate.
      * rewrite new_agent_run.
        destruct (agent_init ChatAgent agent_config) eqn:Hinit; simpl.
        -- intros [= <- _]. eapply fault_init, Hinit.
        -- discriminate.
    + destruct (chat_agent w); [discriminate |].
      intros [= <- _]. apply fault_uninitialised.
Qed.

Lemma search_resolve_agent_raises (w w' : World) (e : exn) :
  search_resolve_agent w = (Raise e, w') -> dispatch_fault e.
Proof.
  unfold search_resolve_agent, bind, gets, modify, ret, raise. simpl.
  destruct (search_agent w) as [a|] eqn:Hsa; simpl.
  - rewrite Hsa. discriminate.
  - rewrite new_agent_run.
    destruct (agent_init SearchAgent agent_config) eqn:Hinit; simpl.
    + intros [= <- _]. eapply fault_init, Hinit.
    + discriminate.
Qed.

(** The chat dispatcher, one step at a time. *)
Lemma chat_with_agent_run (request : ChatRequest.t) (w : World) :
  chat_with_agent request w =
  match chat_resolve_agent (ChatRequest.agent_type request) w with
  | (Ok a, w1) =>
      match agent_execute (agent_class a) (agent_cfg a)
              (ChatRequest.message request) None (env w1) with
      | (inr o, e') =>
          (Ok (ChatResponse.mk (success o) (content o)
                 (ChatRequest.agent_type request) (get_capabilities a)
                 (metadata o) (error o)),
           set_env e' w1)
      | (inl msg, e') =>
          (Ok (ChatResponse.mk false "" (ChatRequest.agent_type request) [] ∅
                 (Some msg)),
           emit (EvLogError ("Error in chat endpoint: " +:+ msg)) (set_env e' w1))
      end
  | (Raise e, w1) =>
      (Ok (ChatResponse.mk false "" (ChatRequest.agent_type request) [] ∅
             (Some (str e))),
       emit (EvLogError ("Error in chat endpoint: " +:+ str e)) w1)
  end.
Proof.
  unfold chat_with_agent, try_except, chat_with_agent_body.
  unfold bind at 1.
  destruct (chat_resolve_agent _ w) as [[a|e] w1]; [| reflexivity].
  unfold bind. rewrite execute_run.
  destruct (agent_execute _ _ _ _ _) as [[msg|o] e']; reflexivity.
Qed.

(** A chat request ends in one of two ways. *)
Lemma chat_with_agent_cases (request : ChatRequest.t) (w : World) :
  (exists a o w',
     returned_by_agent o /\
     chat_with_agent request w =
     (Ok (ChatResponse.mk (success o) (content o) (ChatRequest.agent_type request)
            (get_capabilities a) (metadata o) (error o)), w')) \/
  (exists e w',
     dispatch_fault e /\
     chat_with_agent request w =
     (Ok (ChatResponse.mk false "" (ChatRequest.agent_type request) [] ∅
            (Some (str e))), w')).
Proof.
  rewrite chat_with_agent_run.
  destruct (chat_resolve_agent _ w) as [[a|e] w1] eqn:Hres.
  - destruct (agent_execute _ _ _ _ _) as [[msg|o] e'] eqn:Hexec.
    + right. exists (Exception msg). eexists.
      split; [eapply fault_execute, Hexec | reflexivity].
    + left. exists a, o. eexists. split; [| reflexivity].
      do 6 eexists. exact Hexec.
  - right. exists e. eexists.
    split; [eapply chat_resolve_agent_raises, Hres | reflexivity].
Qed.

(** The search dispatcher, one step at a time. *)
Lemma search_and_summarize_run (request : SearchRequest.t) (w : World) :
  search_and_summarize request w =
  let fault e w' :=
    (Ok (SearchResponse.mk false (SearchRequest.query request) "" None 0
           (Some (str e))),
     emit (EvLogError ("Error in search endpoint: " +:+ str e)) w') in
  match search_resolve_agent w with
  | (Ok a, w1) =>
      match agent_execute (agent_class a) (agent_cfg a)
              (search_prompt_of (SearchRequest.query request)) (Some true)
              (env w1) with
      | (inr o, e') =>
          if success o
          then
            match pydantic_int (dict_get (metadata o) "tools_used" (VInt 0))
                    (set_env e' w1) with
            | (Ok n, w2) =>
                (Ok (SearchResponse.mk true (SearchRequest.query request)
                       (content o) (Some (metadata o)) n None), w2)
            | (Raise e, w2) => fault e w2
            end
          else
            (Ok (SearchResponse.mk false (SearchRequest.query request) "" None 0
                   (error o)), set_env e' w1)
      | (inl msg, e') => fault (Exception msg) (set_env e' w1)
      end
  | (Raise e, w1) => fault e w1
  end.
Proof.
  unfold search_and_summarize, try_except, search_and_summarize_body.
  unfold bind at 1.
  destruct (search_resolve_agent w) as [[a|e] w1]; [| reflexivity].
  cbv zeta. unfold bind at 1. rewrite execute_run.
  destruct (agent_execute _ _ _ _ _) as [[msg|o] e']; simpl; [reflexivity |].
  destruct (success o); [| reflexivity].
  unfold bind.
  destruct (pydantic_int _ _) as [[n|e] w2]; reflexivity.
Qed.

Lemma pydantic_int_raises (v : pyval) (w w' : World) (e : exn) :
  pydantic_int v w = (Raise e, w') -> dispatch_fault e.
Proof.
  unfold pydantic_int, ret, raise.
  destruct v; try discriminate;
    destruct (coerce_int _) as [msg|n] eqn:Hco; try discriminate;
    intros [= <- _]; eapply fault_validation, Hco.
Qed.

(** A search request ends in one of three ways. *)
Lemma search_and_summarize_cases (request : SearchRequest.t) (w : World) :
  (exists o n w',
     returned_by_agent o /\ success o = true /\
     search_and_summarize request w =
     (Ok (SearchResponse.mk true (SearchRequest.query request) (content o)
            (Some (metadata o)) n None), w')) \/
  (exists o w',
     returned_by_agent o /\ success o = false /\
     search_and_summarize request w =
     (Ok (SearchResponse.mk false (SearchRequest.query request) "" None 0 (error o)),
      w')) \/
  (exists e w',
     dispatch_fault e /\
     search_and_summarize request w =
     (Ok (SearchResponse.mk false (SearchRequest.query request) "" None 0
            (Some (str e))), w')).
Proof.
  rewrite search_and_summarize_run. cbv zeta.
  destruct (search_resolve_agent w) as [[a|e] w1] eqn:Hres.
  - destruct (agent_execute _ _ _ _ _) as [[msg|o] e'] eqn:Hexec.
    + right; right. exists (Exception msg). eexists.
      split; [eapply fault_execute, Hexec | reflexivity].
    + assert (Hret : returned_by_agent o) by (do 6 eexists; exact Hexec).
      destruct (success o) eqn:Hok.
      * destruct (pydantic_int _ _) as [[n|e] w2] eqn:Hint.
        -- left. exists o, n. eexists. repeat split; assumption.
        -- right; right. exists e. eexists.
           split; [eapply pydantic_int_raises, Hint | reflexivity].
      * right; left. exists o. eexists. repeat split; assumption.
  - right; right. exists e. eexists.
    split; [eapply search_resolve_agent_raises, Hres | reflexivity].
Qed.

End Envelopes.

Lemma envelope_invariant_fault (s : string) :
  s <> "" -> envelope_invariant false "" (Some s) = true.
Proof.
  intros Hs. unfold envelope_invariant, is_empty. simpl.
  destruct (String.eqb_spec s ""); [contradiction | reflexivity].
Qed.

Lemma envelope_invariant_failed (payload : string) (error : option string) :
  envelope_invariant false payload error = true ->
  envelope_invariant false "" error = true.
Proof.
  unfold envelope_invariant. intros H.
  apply andb_prop in H as [_ H]. rewrite H. reflexivity.
Qed.

(** The claim of C1 fails: on a platform whose agent reports failure with a
    partial answer and no error, the chat envelope has [success = false]
    with a non-empty [response] and no [error], and the search envelope has
    [success = false] with no [error]. *)
Lemma envelope_invariant_counterexample :
  (exists resp w',
     @chat_with_agent half_answer (ChatRequest.mk "hello" "chat" None)
       (@initial half_answer 0%nat) = (Ok resp, w') /\
     ChatResponse.success resp = false /\
     ChatResponse.response resp = "partial answer" /\
     ChatResponse.error resp = None /\
     envelope_invariant (ChatResponse.success resp) (ChatResponse.response resp)
       (ChatResponse.error resp) = false) /\
  (exists resp w',
     @search_and_summarize half_answer (SearchRequest.mk "rust ownership" 3)
       (@initial half_answer 0%nat) = (Ok resp, w') /\
     SearchResponse.success resp = false /\
     SearchResponse.error resp = None /\
     envelope_invariant (SearchResponse.success resp) (SearchResponse.summary resp)
       (SearchResponse.error resp) = false).
Proof.
  split; eexists _, _; (split; [vm_compute; reflexivity |]); repeat split.
Qed.

(** C1, amended: a chat or search request always ends with an envelope, and
    the envelope is determined as follows.  Chat: when the agent is
    resolved and its [execute] returns an outcome, the envelope copies
    [success], [content], [metadata] and [error] from that outcome, with
    the agent's capabilities; when [execute] raises, or the resolution of
    the agent raises, the envelope has [success = false], an empty
    [response], no capabilities and [str] of that exception as [error],
    and one line is logged.  Search: when [execute] returns an outcome that
    reports failure, the envelope has [success = false], an empty
    [summary], [sources_count = 0] and the outcome's [error]; when it
    reports success, the envelope has [success = true], the outcome's
    content and metadata, the validated [tools_used] and no [error], unless
    the validation raises; when the resolution, [execute] or the
    validation raises, the envelope has [success = false], an empty
    [summary] and [str] of that exception as [error].  So a search envelope
    with [success = false] has an empty [summary] and one with
    [success = true] has no [error]; and every envelope satisfies the
    invariant provided every outcome the agents return satisfies it and no
    fault has an empty description. *)
Theorem dispatch_envelopes `{P : Platform} :
  (forall request w,
     chat_with_agent request w =
     match chat_resolve_agent (ChatRequest.agent_type request) w with
     | (Ok a, w1) =>
         match agent_execute (agent_class a) (agent_cfg a)
                 (ChatRequest.message request) None (env w1) with
         | (inr o, e') =>
             (Ok (ChatResponse.mk (success o) (content o)
                    (ChatRequest.agent_type request) (get_capabilities a)
                    (metadata o) (error o)),
              set_env e' w1)
         | (inl msg, e') =>
             (Ok (ChatResponse.mk false "" (ChatRequest.agent_type request) [] ∅
                    (Some msg)),
              emit (EvLogError ("Error in chat endpoint: " +:+ msg)) (set_env e' w1))
         end
     | (Raise e, w1) =>
         (Ok (ChatResponse.mk false "" (ChatRequest.agent_type request) [] ∅
                (Some (str e))),
          emit (EvLogError ("Error in chat endpoint: " +:+ str e)) w1)
     end) /\
  (forall request w,
     search_and_summarize request w =
     let fault msg w' :=
       (Ok (SearchResponse.mk false (SearchRequest.query request) "" None 0
              (Some msg)),
        emit (EvLogError ("Error in search endpoint: " +:+ msg)) w') in
     match search_resolve_agent w with
     | (Ok a, w1) =>
         match agent_execute (agent_class a) (agent_cfg a)
                 (search_prompt_of (SearchRequest.query request)) (Some true)
                 (env w1) with
         | (inr o, e') =>
             let counted n :=
               (Ok (SearchResponse.mk true (SearchRequest.query request)
                      (content o) (Some (metadata o)) n None), set_env e' w1) in
             if success o
             then
               match dict_get (metadata o) "tools_used" (VInt 0) with
               | VInt n => counted n
               | v => match coerce_int v with
                      | inr n => counted n
                      | inl msg => fault msg (set_env e' w1)
                      end
               end
             else
               (Ok (SearchResponse.mk false (SearchRequest.query request) "" None 0
                      (error o)), set_env e' w1)
         | (inl msg, e') => fault msg (set_env e' w1)
         end
     | (Raise e, w1) => fault (str e) w1
     end) /\
  (forall request w,
     exists resp,
       fst (search_and_summarize request w) = Ok resp /\
       (SearchResponse.success resp = false -> SearchResponse.summary resp = "") /\
       (SearchResponse.success resp = true -> SearchResponse.error resp = None)) /\
  (forall request w,
     exists resp,
       fst (chat_with_agent request w) = Ok resp /\
       ((exists o,
           returned_by_agent o /\
           ChatResponse.success resp = success o /\
           ChatResponse.response resp = content o /\
           ChatResponse.error resp = error o) \/
        (exists e,
           dispatch_fault e /\
           ChatResponse.success resp = false /\
           ChatResponse.response resp = "" /\
           ChatResponse.error resp = Some (str e)))) /\
  (outcomes_satisfy_invariant ->
   faults_are_described ->
   (forall request w resp,
      fst (chat_with_agent request w) = Ok resp ->
      envelope_invariant (ChatResponse.success resp) (ChatResponse.response resp)
        (ChatResponse.error resp) = true) /\
   (forall request w resp,
      fst (search_and_summarize request w) = Ok resp ->
      envelope_invariant (SearchResponse.success resp) (SearchResponse.summary resp)
        (SearchResponse.error resp) = true)).
Proof.
  split; [| split; [| split; [| split]]].
  - intros request w. apply chat_with_agent_run.
  - intros request w. rewrite search_and_summarize_run. cbv zeta.
    destruct (search_resolve_agent w) as [[a|e] w1]; [| reflexivity].
    destruct (agent_execute _ _ _ _ _) as [[msg|o] e']; [reflexivity |].
    destruct (success o); [| reflexivity].
    unfold pydantic_int.
    destruct (dict_get (metadata o) "tools_used" (VInt 0)) as [|b|n|s];
      try reflexivity; destruct (coerce_int _) as [msg|n]; reflexivity.
  - intros request w.
    destruct (search_and_summarize_cases request w)
      as [(o & n & w' & _ & _ & ->) | [(o & w' & _ & _ & ->) | (e & w' & _ & ->)]];
      eexists; (split; [reflexivity |]); simpl; split; congruence.
  - intros request w.
    destruct (chat_with_agent_cases request w)
      as [(a & o & w' & Hret & ->) | (e & w' & He & ->)];
      eexists; (split; [reflexivity |]); simpl.
    + left. exists o. repeat split. exact Hret.
    + right. exists e. repeat split. exact He.
  - intros Hout Hfaults. split; intros request w resp.
    + destruct (chat_with_agent_cases request w)
        as [(a & o & w' & Hret & ->) | (e & w' & He & ->)];
        simpl; intros [= <-]; simpl.
      * apply Hout, Hret.
      * apply envelope_invariant_fault, Hfaults, He.
    + destruct (search_and_summarize_cases request w)
        as [(o & n & w' & Hret & Hok & ->)
           | [(o & w' & Hret & Hko & ->) | (e & w' & He & ->)]];
        simpl; intros [= <-]; simpl.
      * reflexivity.
      * apply envelope_invariant_failed with (payload := content o).
        rewrite <- Hko. apply Hout, Hret.
      * apply envelope_invariant_fault, Hfaults, He.
Qed.

Lemma demo_outcomes_satisfy_invariant : @outcomes_satisfy_invariant demo.
Proof.
  intros o (cls & cfg & message & use_tools & e & e' & H).
  simpl in H. injection H as <- _. reflexivity.
Defined.

Lemma demo_faults_are_described : @faults_are_described demo.
Proof.
  intros e He. destruct He as [cls msg H | cls cfg m u e0 msg e' H | v msg H | |];
    simpl in *; try discriminate.
  injection H as <-. discriminate.
Defined.

Lemma dispatch_envelopes_witness :
  (forall request w resp,
     fst (@chat_with_agent demo request w) = Ok resp ->
     envelope_invariant (ChatResponse.success resp) (ChatResponse.response resp)
       (ChatResponse.error resp) = true) /\
  (forall request w resp,
     fst (@search_and_summarize demo request w) = Ok resp ->
     envelope_invariant (SearchResponse.success resp) (SearchResponse.summary resp)
       (SearchResponse.error resp) = true).
Proof.
  exact (proj2 (proj2 (proj2 (proj2 (@dispatch_envelopes demo))))
           demo_outcomes_satisfy_invariant demo_faults_are_described).
Defined.

(** ** POST /wallpapers/generate *)

Section Generation.
Context `{P : Platform}.

Lemma db_call_run (w : World) :
  db_call w =
  (match fst (db_fault (env w)) with
   | Some msg => Raise (Exception msg)
   | None => Ok tt
   end, set_env (snd (db_fault (env w))) w).
Proof.
  unfold db_call, external.
  destruct (db_fault (env w)) as [[msg|] e']; reflexivity.
Qed.

Lemma generate_ai_image_run (prompt aspect_ratio megapixels : string) (w : World) :
  generate_ai_image prompt aspect_ratio megapixels w =
  (Ok {[ "success" := VBool false; "error" := VStr not_configured ]},
   emit (EvGenerateImage prompt aspect_ratio megapixels) w).
Proof. reflexivity. Qed.

(** The pipeline up to the test of [image_result["success"]], when the
    generator returns a dictionary with that key. *)
Lemma generate_wallpaper_body_run
    (generate : string -> string -> string -> M (gmap string pyval))
    (request : WallpaperRequest.t) (w w2 : World)
    (image_result : gmap string pyval) (ok : pyval) :
  generate (WallpaperRequest.prompt request) (WallpaperRequest.aspect_ratio request)
    (WallpaperRequest.megapixels request) (identified w) = (Ok image_result, w2) ->
  image_result !! "success" = Some ok ->
  truthy ok = false ->
  generate_wallpaper_body generate request w =
  (Raise (HTTPException 503
            (dict_get image_result "error" (VStr "Failed to generate image"))), w2).
Proof.
  intros Hgen Hok Hfalsy.
  unfold generate_wallpaper_body, bind, external, identified in *.
  destruct (uuid4 (env w)) as [u e1]; simpl in *.
  rewrite Hgen. unfold dict_item. rewrite Hok. unfold ret.
  rewrite Hfalsy. reflexivity.
Qed.

Lemma bind_ok {A B} (m : M A) (k : A -> M B) (w w' : World) (a : A) :
  m w = (Ok a, w') -> bind m k w = k a w'.
Proof. intros H. unfold bind. rewrite H. reflexivity. Qed.

Lemma bind_raise {A B} (m : M A) (k : A -> M B) (w w' : World) (e : exn) :
  m w = (Raise e, w') -> bind m k w = (Raise e, w').
Proof. intros H. unfold bind. rewrite H. reflexivity. Qed.

Lemma uuid4_run (w : World) :
  external (fun e => let '(u, e') := uuid4 e in (inr u, e')) w =
  (Ok (fst (uuid4 (env w))), identified w).
Proof.
  unfold external, identified. destruct (uuid4 (env w)) as [u e']. reflexivity.
Qed.

Lemma now_run (w : World) :
  now w = (Ok (fst (utcnow (env w))), set_env (snd (utcnow (env w))) w).
Proof.
  unfold now, external. destruct (utcnow (env w)) as [t e']. reflexivity.
Qed.

Lemma dict_item_run (d : gmap string pyval) (k : string) (v : pyval) (w : World) :
  d !! k = Some v -> dict_item d k w = (Ok v, w).
Proof. intros H. unfold dict_item. rewrite H. reflexivity. Qed.

(** The pipeline when the generator succeeds and the store raises at
    [insert_one]. *)
Lemma generate_wallpaper_body_insert_fault
    (generate : string -> string -> string -> M (gmap string pyval))
    (request : WallpaperRequest.t) (w w2 : World)
    (image_result : gmap string pyval) (ok : pyval) (url data msg : string)
    (e' : Env) :
  generate (WallpaperRequest.prompt request) (WallpaperRequest.aspect_ratio request)
    (WallpaperRequest.megapixels request) (identified w) = (Ok image_result, w2) ->
  image_result !! "success" = Some ok ->
  truthy ok = true ->
  image_result !! "image_url" = Some (VStr url) ->
  image_result !! "image_data" = Some (VStr data) ->
  db_fault (snd (utcnow (env w2))) = (Some msg, e') ->
  generate_wallpaper_body generate request w = (Raise (Exception msg), set_env e' w2).
Proof.
  intros Hgen Hok Htruthy Hurl Hdata Hdb.
  unfold generate_wallpaper_body.
  rewrite (bind_ok _ _ _ _ _ (uuid4_run w)).
  rewrite (bind_ok _ _ _ _ _ Hgen).
  rewrite (bind_ok _ _ _ _ _ (dict_item_run _ _ _ _ Hok)).
  rewrite Htruthy. cbn [negb].
  rewrite (bind_ok _ _ _ _ _ (dict_item_run _ _ _ _ Hurl)).
  rewrite (bind_ok _ _ _ _ _ (dict_item_run _ _ _ _ Hdata)).
  unfold pydantic_str at 1 2.
  rewrite (bind_ok _ _ w2 w2 url eq_refl).
  rewrite (bind_ok _ _ w2 w2 data eq_refl).
  rewrite (bind_ok _ _ _ _ _ (now_run w2)).
  cbv zeta.
  apply bind_raise. unfold insert_one. apply bind_raise.
  rewrite db_call_run. cbn [env set_env]. rewrite Hdb. reflexivity.
Qed.

End Generation.

(** C4: whenever the image generator returns a dictionary whose ["success"]
    is falsy and whose ["error"] is an explanation, the pipeline raises
    [HTTPException] with status 503, which is not the status 500 of the
    generic handler, and with exactly that explanation as detail; it ends
    in the state the generator left, so it performs no [insert_one] and
    the collection is as the generator left it. *)
Theorem generator_unavailable `{P : Platform}
    (generate : string -> string -> string -> M (gmap string pyval))
    (request : WallpaperRequest.t) (w w2 : World)
    (image_result : gmap string pyval) (ok explanation : pyval) :
  generate (WallpaperRequest.prompt request) (WallpaperRequest.aspect_ratio request)
    (WallpaperRequest.megapixels request) (identified w) = (Ok image_result, w2) ->
  image_result !! "success" = Some ok ->
  truthy ok = false ->
  image_result !! "error" = Some explanation ->
  generate_wallpaper_with generate request w =
    (Raise (HTTPException 503 explanation), w2) /\
  internal_error (fst (generate_wallpaper_with generate request w)) = false /\
  wallpapers (snd (generate_wallpaper_with generate request w)) = wallpapers w2.
Proof.
  intros Hgen Hok Hfalsy Herr.
  assert (Hrun : generate_wallpaper_with generate request w =
                 (Raise (HTTPException 503 explanation), w2)).
  { unfold generate_wallpaper_with, try_except.
    rewrite (generate_wallpaper_body_run _ _ _ _ _ _ Hgen Hok Hfalsy).
    unfold dict_get. rewrite Herr. reflexivity. }
  rewrite Hrun. repeat split.
Qed.

Lemma generator_unavailable_witness :
  @generate_wallpaper_with demo generate_ai_image
    (WallpaperRequest.mk "mountain sunset" "9:16" "1" None) (@initial demo 0%nat) =
    (Raise (HTTPException 503 (VStr not_configured)),
     @mkWorld demo None None [] 1%nat [EvGenerateImage "mountain sunset" "9:16" "1"]) /\
  internal_error
    (fst (@generate_wallpaper_with demo generate_ai_image
            (WallpaperRequest.mk "mountain sunset" "9:16" "1" None)
            (@initial demo 0%nat))) = false /\
  wallpapers
    (snd (@generate_wallpaper_with demo generate_ai_image
            (WallpaperRequest.mk "mountain sunset" "9:16" "1" None)
            (@initial demo 0%nat))) = [].
Proof.
  apply (@generator_unavailable demo generate_ai_image
           (WallpaperRequest.mk "mountain sunset" "9:16" "1" None)
           (@initial demo 0%nat)
           (@mkWorld demo None None [] 1%nat
              [EvGenerateImage "mountain sunset" "9:16" "1"])
           {[ "success" := VBool false; "error" := VStr not_configured ]}
           (VBool false) (VStr not_configured));
    reflexivity.
Defined.

(** C10: for every input [generate_ai_image] returns the dictionary with
    [success] false and the fixed not-configured message as [error], so
    [generate_wallpaper] always raises [HTTPException] with status 503 and
    that message, and leaves [db.wallpapers] as it was, whether the store
    would fault or not. *)
Theorem generation_not_configured `{P : Platform} :
  (forall prompt aspect_ratio megapixels w,
     exists image_result,
       generate_ai_image prompt aspect_ratio megapixels w =
         (Ok image_result, emit (EvGenerateImage prompt aspect_ratio megapixels) w) /\
       image_result !! "success" = Some (VBool false) /\
       image_result !! "error" = Some (VStr not_configured)) /\
  (forall request w,
     exists w',
       generate_wallpaper request w =
         (Raise (HTTPException 503 (VStr not_configured)), w') /\
       wallpapers w' = wallpapers w).
Proof.
  split.
  - intros prompt aspect_ratio megapixels w.
    eexists. split; [apply generate_ai_image_run |]. split; reflexivity.
  - intros request w. eexists.
    split.
    + unfold generate_wallpaper, generate_wallpaper_with, try_except.
      rewrite (generate_wallpaper_body_run generate_ai_image request w _ _ (VBool false)
                 (generate_ai_image_run _ _ _ _));
        reflexivity.
    + reflexivity.
Qed.

(** The claim of C3 fails: a request with the empty prompt is not answered
    with a caller error; [generate_ai_image] is called with the empty
    prompt and the answer is the 503 of the unconfigured generator. *)
Lemma empty_prompt_counterexample :
  @generate_wallpaper demo (WallpaperRequest.mk "" "9:16" "1" None) (@initial demo 0%nat) =
    (Raise (HTTPException 503 (VStr not_configured)),
     @mkWorld demo None None [] 1%nat [EvGenerateImage "" "9:16" "1"]) /\
  caller_error
    (fst (@generate_wallpaper demo (WallpaperRequest.mk "" "9:16" "1" None)
            (@initial demo 0%nat))) = false /\
  generator_calls
    (snd (@generate_wallpaper demo (WallpaperRequest.mk "" "9:16" "1" None)
            (@initial demo 0%nat))) = [EvGenerateImage "" "9:16" "1"].
Proof. repeat split. Qed.

(** C3, amended: a generation request whose prompt is the empty string is
    not validated: [generate_ai_image] is called once, with the empty
    prompt, and the request ends as every other one does, with
    [HTTPException] of status 503 (not a 4xx) carrying the generator's
    explanation; no record is inserted. *)
Theorem empty_prompt_not_validated `{P : Platform}
    (request : WallpaperRequest.t) (w : World) :
  WallpaperRequest.prompt request = "" ->
  exists w',
    generate_wallpaper request w =
      (Raise (HTTPException 503 (VStr not_configured)), w') /\
    caller_error (fst (generate_wallpaper request w)) = false /\
    trace w' =
      (trace w ++ [EvGenerateImage "" (WallpaperRequest.aspect_ratio request)
                     (WallpaperRequest.megapixels request)])%list /\
    wallpapers w' = wallpapers w.
Proof.
  intros Hempty.
  assert (Hrun : generate_wallpaper request w =
                 (Raise (HTTPException 503 (VStr not_configured)),
                  emit (EvGenerateImage "" (WallpaperRequest.aspect_ratio request)
                          (WallpaperRequest.megapixels request)) (identified w))).
  { unfold generate_wallpaper, generate_wallpaper_with, try_except.
    rewrite (generate_wallpaper_body_run generate_ai_image request w _ _ (VBool false)
               (generate_ai_image_run _ _ _ _)); [| reflexivity | reflexivity].
    rewrite Hempty. reflexivity. }
  eexists. split; [exact Hrun |].
  rewrite Hrun. repeat split.
Qed.

Lemma empty_prompt_not_validated_witness :
  exists w' : @World demo,
    @generate_wallpaper demo (WallpaperRequest.mk "" "9:16" "1" None)
      (@initial demo 0%nat) =
      (Raise (HTTPException 503 (VStr not_configured)), w') /\
    caller_error
      (fst (@generate_wallpaper demo (WallpaperRequest.mk "" "9:16" "1" None)
              (@initial demo 0%nat))) = false /\
    trace w' = [EvGenerateImage "" "9:16" "1"] /\
    wallpapers w' = [].
Proof.
  apply (@empty_prompt_not_validated demo (WallpaperRequest.mk "" "9:16" "1" None)
           (@initial demo 0%nat)).
  reflexivity.
Defined.

(** ** GET /wallpapers/{wallpaper_id} *)

Lemma find_absent (wallpaper_id : string) (l : list Wallpaper.t) :
  Forall (fun d => Wallpaper.id d <> wallpaper_id) l ->
  List.find (fun d => String.eqb (Wallpaper.id d) wallpaper_id) l = None.
Proof.
  induction 1 as [|d l Hd _ IH]; simpl; [reflexivity |].
  destruct (String.eqb_spec (Wallpaper.id d) wallpaper_id); [contradiction | exact IH].
Qed.

(** C2 (what the code does): when the store answers and holds no generation
    with the identifier, [get_wallpaper] raises the 404 inside its own [try]
    block, whose only handler catches it and raises [HTTPException] with
    status 500 and [str] of the 404 as detail: the generic internal error,
    not the not-found condition. *)
Theorem get_wallpaper_absent `{P : Platform} (wallpaper_id : string) (w : World) :
  fst (db_fault (env w)) = None ->
  Forall (fun d => Wallpaper.id d <> wallpaper_id) (wallpapers w) ->
  fst (get_wallpaper wallpaper_id w) =
    Raise (HTTPException 500
             (VStr (str_HTTPException 404 (VStr "Wallpaper not found")))) /\
  internal_error (fst (get_wallpaper wallpaper_id w)) = true.
Proof.
  intros Hdb Habsent.
  assert (Hrun : fst (get_wallpaper wallpaper_id w) =
    Raise (HTTPException 500
             (VStr (str_HTTPException 404 (VStr "Wallpaper not found"))))).
  { unfold get_wallpaper, try_except, find_one.
    unfold bind at 1. unfold bind at 1. rewrite db_call_run, Hdb.
    unfold gets. simpl. rewrite (find_absent _ _ Habsent). reflexivity. }
  rewrite Hrun. split; reflexivity.
Qed.

Lemma get_wallpaper_absent_witness :
  fst (@get_wallpaper demo "6f1c" (@initial demo 0%nat)) =
    Raise (HTTPException 500 (VStr "404: Wallpaper not found")) /\
  internal_error (fst (@get_wallpaper demo "6f1c" (@initial demo 0%nat))) = true.
Proof.
  apply (@get_wallpaper_absent demo "6f1c" (@initial demo 0%nat));
    [reflexivity | constructor].
Defined.

(** ** Faults of the store and of the generator *)

(** The claim of C5 fails for the listing: with the store out of reach,
    [get_wallpapers] returns the empty list, the response of a store that
    holds no generation, although one is stored. *)
Lemma listing_fault_counterexample :
  fst (@db_fault store_down 0%nat) = Some "connection refused" /\
  @get_wallpapers store_down
    (@mkWorld store_down None None three_wallpapers 0%nat []) =
    (Ok [],
     @mkWorld store_down None None three_wallpapers 0%nat
       [EvLogError "Error getting wallpapers: connection refused"]) /\
  internal_error
    (fst (@get_wallpapers store_down
            (@mkWorld store_down None None three_wallpapers 0%nat []))) = false.
Proof. repeat split. Qed.

(** C5, amended: in [generate_wallpaper] an exception raised by the image
    generator, and one raised by the store at [insert_one], is logged and
    converted to [HTTPException] with status 500 and [str(e)] as detail,
    and no record is inserted; in [get_wallpaper] an exception raised by
    the store is logged and converted the same way; in [get_wallpapers] an
    exception raised by the store is logged and the empty list is
    returned. *)
Theorem faults_converted `{P : Platform} :
  (forall generate request w w2 msg,
     generate (WallpaperRequest.prompt request) (WallpaperRequest.aspect_ratio request)
       (WallpaperRequest.megapixels request) (identified w) =
       (Raise (Exception msg), w2) ->
     generate_wallpaper_with generate request w =
       (Raise (HTTPException 500 (VStr msg)),
        emit (EvLogError ("Error generating wallpaper: " +:+ msg)) w2)) /\
  (forall generate request w w2 image_result ok url data msg e',
     generate (WallpaperRequest.prompt request) (WallpaperRequest.aspect_ratio request)
       (WallpaperRequest.megapixels request) (identified w) = (Ok image_result, w2) ->
     image_result !! "success" = Some ok ->
     truthy ok = true ->
     image_result !! "image_url" = Some (VStr url) ->
     image_result !! "image_data" = Some (VStr data) ->
     db_fault (snd (utcnow (env w2))) = (Some msg, e') ->
     generate_wallpaper_with generate request w =
       (Raise (HTTPException 500 (VStr msg)),
        emit (EvLogError ("Error generating wallpaper: " +:+ msg)) (set_env e' w2))) /\
  (forall wallpaper_id w msg e',
     db_fault (env w) = (Some msg, e') ->
     get_wallpaper wallpaper_id w =
       (Raise (HTTPException 500 (VStr msg)),
        emit (EvLogError ("Error getting wallpaper: " +:+ msg)) (set_env e' w))) /\
  (forall w msg e',
     db_fault (env w) = (Some msg, e') ->
     get_wallpapers w =
       (Ok [], emit (EvLogError ("Error getting wallpapers: " +:+ msg)) (set_env e' w))).
Proof.
  split; [| split; [| split]].
  - intros generate request w w2 msg Hgen.
    unfold generate_wallpaper_with, try_except, generate_wallpaper_body.
    unfold bind at 1. unfold external. unfold identified in Hgen.
    destruct (uuid4 (env w)) as [u e1]; simpl in *.
    unfold bind at 1. rewrite Hgen. reflexivity.
  - intros generate request w w2 image_result ok url data msg e'
      Hgen Hok Htruthy Hurl Hdata Hdb.
    unfold generate_wallpaper_with, try_except.
    rewrite (generate_wallpaper_body_insert_fault _ _ _ _ _ _ _ _ _ _
               Hgen Hok Htruthy Hurl Hdata Hdb).
    reflexivity.
  - intros wallpaper_id w msg e' Hdb.
    unfold get_wallpaper, try_except, find_one.
    unfold bind at 1. unfold bind at 1. rewrite db_call_run, Hdb. reflexivity.
  - intros w msg e' Hdb.
    unfold get_wallpapers, try_except, find_sort_to_list.
    unfold bind at 1. unfold bind at 1. rewrite db_call_run, Hdb. reflexivity.
Qed.

Lemma faults_converted_witness :
  @generate_wallpaper_with store_down (failing_generator "model crashed")
    (WallpaperRequest.mk "ocean" "9:16" "1" None) (@initial store_down 0%nat) =
    (Raise (HTTPException 500 (VStr "model crashed")),
     @mkWorld store_down None None [] 1%nat
       [EvLogError "Error generating wallpaper: model crashed"]) /\
  @generate_wallpaper_with store_down working_generator
    (WallpaperRequest.mk "ocean" "9:16" "1" None) (@initial store_down 0%nat) =
    (Raise (HTTPException 500 (VStr "connection refused")),
     @mkWorld store_down None None [] 2%nat
       [EvLogError "Error generating wallpaper: connection refused"]) /\
  @get_wallpaper store_down "a"
    (@mkWorld store_down None None three_wallpapers 0%nat []) =
    (Raise (HTTPException 500 (VStr "connection refused")),
     @mkWorld store_down None None three_wallpapers 0%nat
       [EvLogError "Error getting wallpaper: connection refused"]) /\
  @get_wallpapers store_down
    (@mkWorld store_down None None three_wallpapers 0%nat []) =
    (Ok [],
     @mkWorld store_down None None three_wallpapers 0%nat
       [EvLogError "Error getting wallpapers: connection refused"]).
Proof.
  destruct (@faults_converted store_down) as (Hgen & Hinsert & Hget & Hlist).
  split; [| split; [| split]].
  - apply (Hgen (failing_generator "model crashed")
             (WallpaperRequest.mk "ocean" "9:16" "1" None) (@initial store_down 0%nat)
             (@mkWorld store_down None None [] 1%nat [])).
    reflexivity.
  - apply (Hinsert working_generator
             (WallpaperRequest.mk "ocean" "9:16" "1" None) (@initial store_down 0%nat)
             (@mkWorld store_down None None [] 1%nat [])
             {[ "success" := VBool true;
                "image_url" := VStr "https://images.example/1.png";
                "image_data" := VStr "iVBORw0KGgo=" ]}
             (VBool true) "https://images.example/1.png" "iVBORw0KGgo="
             "connection refused" 2%nat);
      reflexivity.
  - apply (Hget "a" (@mkWorld store_down None None three_wallpapers 0%nat [])
             "connection refused" 0%nat).
    reflexivity.
  - apply (Hlist (@mkWorld store_down None None three_wallpapers 0%nat [])
             "connection refused" 0%nat).
    reflexivity.
Defined.

(** ** GET /wallpapers *)

Global Instance created_at_desc_transitive : Transitive created_at_desc.
Proof. unfold created_at_desc. intros x y z Hxy Hyz. lia. Qed.

Global Instance created_at_desc_total : Total created_at_desc.
Proof. unfold created_at_desc. intros x y. lia. Qed.

(** Descending with no instant twice is strictly descending. *)
Lemma sorted_distinct_strict (l : list Wallpaper.t) :
  StronglySorted created_at_desc l ->
  NoDup (map Wallpaper.created_at l) ->
  StronglySorted created_strictly_after l.
Proof.
  induction l as [|x l IH]; intros Hsorted Hnodup; [constructor |].
  apply StronglySorted_cons in Hsorted as [Hhd Hsorted].
  simpl in Hnodup. apply NoDup_cons in Hnodup as [Hfresh Hnodup].
  apply StronglySorted_cons. split; [| apply IH; assumption].
  rewrite Forall_forall in Hhd. rewrite Forall_forall. intros y Hy.
  specialize (Hhd y Hy). unfold created_at_desc in Hhd.
  unfold created_strictly_after.
  assert (Wallpaper.created_at y <> Wallpaper.created_at x).
  { intros Heq. apply Hfresh. rewrite <- Heq.
    apply list_elem_of_fmap_2. exact Hy. }
  lia.
Qed.

Lemma sorted_response_of (l : list Wallpaper.t) :
  StronglySorted created_strictly_after l ->
  StronglySorted strictly_newer (map response_of l).
Proof.
  induction l as [|x l IH]; intros Hsorted; simpl; [constructor |].
  apply StronglySorted_cons in Hsorted as [Hhd Hsorted].
  apply StronglySorted_cons. split; [| apply IH, Hsorted].
  rewrite Forall_forall in Hhd. rewrite Forall_forall. intros r Hr.
  apply list_elem_of_fmap in Hr as (y & -> & Hy).
  apply Hhd, Hy.
Qed.

(** What the query of the listing returns: the newest records, newest
    first, and what it leaves out is older and only left out when the page
    is full. *)
Lemma newest_page (n : nat) (ws : list Wallpaper.t) :
  NoDup (map Wallpaper.created_at ws) ->
  let page := take n (merge_sort created_at_desc ws) in
  let rest := drop n (merge_sort created_at_desc ws) in
  (length page <= n)%nat /\
  StronglySorted strictly_newer (map response_of page) /\
  map response_of ws ≡ₚ (map response_of page ++ map response_of rest)%list /\
  ((length ws <= n)%nat -> rest = []) /\
  (forall x y, x ∈ map response_of page -> y ∈ map response_of rest -> strictly_newer x y).
Proof.
  intros Hnodup page rest.
  pose proof (merge_sort_Permutation created_at_desc ws) as Hperm.
  assert (Hstrict : StronglySorted created_strictly_after (page ++ rest)).
  { unfold page, rest. rewrite take_drop.
    apply sorted_distinct_strict.
    - apply StronglySorted_merge_sort; apply _.
    - rewrite Hperm. exact Hnodup. }
  split; [unfold page; rewrite length_take; lia |].
  split; [apply sorted_response_of, (StronglySorted_app_1_l _ _ _ Hstrict) |].
  split.
  { rewrite <- map_app. unfold page, rest. rewrite take_drop.
    rewrite Hperm. reflexivity. }
  split.
  { intros Hlen. unfold rest. apply drop_ge.
    rewrite Hperm. exact Hlen. }
  intros x y Hx Hy.
  apply list_elem_of_fmap in Hx as (x' & -> & Hx).
  apply list_elem_of_fmap in Hy as (y' & -> & Hy).
  exact (StronglySorted_app_1_elem_of _ _ _ _ _ Hstrict Hx Hy).
Qed.

(** C7: when no two persisted generations have the same [created_at], the
    listing returns a list that is strictly descending by [created_at] and
    has at most 100 records; when the store answers, the list holds
    persisted generations only: together with the records it leaves out it
    is a rearrangement of the collection, every record left out is older
    than every record listed, and none is left out when the collection
    holds at most 100. *)
Theorem listing_order `{P : Platform} (w : World) :
  NoDup (map Wallpaper.created_at (wallpapers w)) ->
  exists l w',
    get_wallpapers w = (Ok l, w') /\
    (length l <= 100)%nat /\
    StronglySorted strictly_newer l /\
    (fst (db_fault (env w)) = None ->
     exists older,
       map response_of (wallpapers w) ≡ₚ (l ++ older)%list /\
       ((length (wallpapers w) <= 100)%nat -> older = []) /\
       (forall x y, x ∈ l -> y ∈ older -> strictly_newer x y)).
Proof.
  intros Hnodup.
  unfold get_wallpapers, try_except, find_sort_to_list.
  unfold bind at 1. unfold bind at 1. rewrite db_call_run.
  destruct (fst (db_fault (env w))) as [msg|] eqn:Hdb; simpl.
  - eexists _, _. split; [reflexivity |].
    split; [simpl; lia |]. split; [constructor | discriminate].
  - destruct (newest_page 100 (wallpapers w) Hnodup)
      as (Hlen & Hsorted & Hperm & Hall & Holder).
    eexists _, _. split; [reflexivity |].
    split; [rewrite length_map; exact Hlen |].
    split; [exact Hsorted |].
    intros _. eexists. split; [exact Hperm |].
    split; [| exact Holder].
    intros Hsmall. rewrite (Hall Hsmall). reflexivity.
Qed.

Lemma listing_order_witness :
  exists l w',
    @get_wallpapers demo (@mkWorld demo None None three_wallpapers 0%nat []) =
      (Ok l, w') /\
    (length l <= 100)%nat /\
    StronglySorted strictly_newer l /\
    (fst (@db_fault demo 0%nat) = None ->
     exists older,
       map response_of three_wallpapers ≡ₚ (l ++ older)%list /\
       ((length three_wallpapers <= 100)%nat -> older = []) /\
       (forall x y, x ∈ l -> y ∈ older -> strictly_newer x y)).
Proof.
  apply (@listing_order demo (@mkWorld demo None None three_wallpapers 0%nat [])).
  simpl. apply (bool_decide_unpack _). vm_compute. exact I.
Defined.

(** Scenario 5 of the specification: generations created at 1 < 2 < 3 are
    listed as 3, 2, 1. *)
Example listing_three :
  map WallpaperResponse.created_at
    (match fst (@get_wallpapers demo (@mkWorld demo None None three_wallpapers 0%nat []))
     with Ok l => l | Raise _ => [] end) = [3; 2; 1].
Proof. vm_compute. reflexivity. Qed.

(** * Further properties of the handlers *)

(** ** The chat dispatcher and an [agent_type] it does not know *)

Lemma chat_resolve_agent_unknown `{P : Platform} (agent_type : string) (w : World) :
  agent_type <> "search" ->
  agent_type <> "chat" ->
  chat_resolve_agent agent_type w =
  (match chat_agent w with
   | Some a => Ok a
   | None => Raise (HTTPException 500 (VStr "Failed to initialize agent"))
   end, w).
Proof.
  intros Hs Hc.
  unfold chat_resolve_agent, bind, gets, ret, raise. simpl.
  destruct (String.eqb_spec agent_type "search") as [|_]; [contradiction |].
  destruct (String.eqb_spec agent_type "chat") as [|_]; [contradiction |].
  simpl. destruct (chat_agent w); reflexivity.
Qed.

(** X1: a chat request whose [agent_type] is neither "search" nor "chat"
    builds no agent.  If the chat agent has not been built yet, the answer
    is the failure envelope whose error is [str] of the
    "Failed to initialize agent" exception; if it has, the chat agent
    answers the message and the envelope echoes the unknown [agent_type]. *)
Theorem chat_unknown_agent_type `{P : Platform} (request : ChatRequest.t) (w : World) :
  ChatRequest.agent_type request <> "search" ->
  ChatRequest.agent_type request <> "chat" ->
  (chat_agent w = None ->
   chat_with_agent request w =
   (Ok (ChatResponse.mk false "" (ChatRequest.agent_type request) [] ∅
          (Some (str_HTTPException 500 (VStr "Failed to initialize agent")))),
    emit (EvLogError ("Error in chat endpoint: " +:+
                      str_HTTPException 500 (VStr "Failed to initialize agent"))) w)) /\
  (forall a o e',
     chat_agent w = Some a ->
     agent_execute (agent_class a) (agent_cfg a) (ChatRequest.message request) None
       (env w) = (inr o, e') ->
     chat_with_agent request w =
     (Ok (ChatResponse.mk (success o) (content o) (ChatRequest.agent_type request)
            (get_capabilities a) (metadata o) (error o)),
      set_env e' w)).
Proof.
  intros Hs Hc. split.
  - intros Hnone. rewrite chat_with_agent_run.
    rewrite (chat_resolve_agent_unknown _ _ Hs Hc), Hnone. reflexivity.
  - intros a o e' Hsome Hexec. rewrite chat_with_agent_run.
    rewrite (chat_resolve_agent_unknown _ _ Hs Hc), Hsome, Hexec. reflexivity.
Qed.

Lemma chat_unknown_agent_type_witness :
  @chat_with_agent demo (ChatRequest.mk "hello" "planner" None) (@initial demo 0%nat) =
    (Ok (ChatResponse.mk false "" "planner" [] ∅
           (Some "500: Failed to initialize agent")),
     @mkWorld demo None None [] 0%nat
       [EvLogError "Error in chat endpoint: 500: Failed to initialize agent"]) /\
  @chat_with_agent demo (ChatRequest.mk "hello" "planner" None)
    (@mkWorld demo None (Some (@mkAgent demo ChatAgent tt)) [] 0%nat []) =
    (Ok (ChatResponse.mk true "Hello!" "planner" ["conversation"] ∅ None),
     @mkWorld demo None (Some (@mkAgent demo ChatAgent tt)) [] 0%nat []).
Proof.
  split.
  - apply (proj1 (@chat_unknown_agent_type demo (ChatRequest.mk "hello" "planner" None)
                    (@initial demo 0%nat) ltac:(discriminate) ltac:(discriminate))).
    reflexivity.
  - apply (proj2 (@chat_unknown_agent_type demo (ChatRequest.mk "hello" "planner" None)
                    (@mkWorld demo None (Some (@mkAgent demo ChatAgent tt)) [] 0%nat [])
                    ltac:(discriminate) ltac:(discriminate))
             (@mkAgent demo ChatAgent tt) (mkOutcome true "Hello!" ∅ None) 0%nat);
      reflexivity.
Defined.

(** ** A constructor that raises *)

Lemma constructions_emit `{P : Platform} (cls : AgentClass) (ev : Event) (w : World) :
  constructions cls (emit ev w) =
  (constructions cls w + if bool_decide (ev = EvConstruct cls) then 1 else 0)%nat.
Proof.
  unfold constructions, emit. simpl.
  rewrite List.filter_app, length_app. simpl.
  destruct (bool_decide (ev = EvConstruct cls)); reflexivity.
Qed.

(** A chat request for a kind whose slot is empty and whose constructor
    raises. *)
Lemma chat_with_agent_init_fault `{P : Platform} (cls : AgentClass)
    (message : string) (context : option (gmap string pyval)) (msg : string)
    (w : World) :
  agent_init cls agent_config = Some msg ->
  slot cls w = None ->
  chat_with_agent (ChatRequest.mk message (agent_type_of cls) context) w =
  (Ok (ChatResponse.mk false "" (agent_type_of cls) [] ∅ (Some msg)),
   emit (EvLogError ("Error in chat endpoint: " +:+ msg)) (emit (EvConstruct cls) w)).
Proof.
  intros Hinit Hempty. rewrite chat_with_agent_run.
  assert (Hres : chat_resolve_agent (agent_type_of cls) w =
                 (Raise (Exception msg), emit (EvConstruct cls) w)).
  { destruct cls; simpl in *;
      unfold chat_resolve_agent, bind, gets, modify, ret; simpl;
      rewrite Hempty; simpl; rewrite new_agent_run, Hinit; reflexivity. }
  simpl. rewrite Hres. reflexivity.
Qed.

(** X2: a constructor failure is not remembered.  While the constructor of
    a kind raises, every chat request for that kind calls it again, is
    answered with the failure envelope carrying the constructor's message,
    and leaves the slot empty: after [n] such requests the constructor has
    been called [n] more times. *)
Theorem failed_constructor_retried `{P : Platform} (cls : AgentClass)
    (message : string) (context : option (gmap string pyval)) (msg : string)
    (n : nat) (w : World) :
  agent_init cls agent_config = Some msg ->
  slot cls w = None ->
  let request := ChatRequest.mk message (agent_type_of cls) context in
  let w' := after_calls (replicate n (CallChat request)) w in
  slot cls w' = None /\
  constructions cls w' = (constructions cls w + n)%nat /\
  fst (chat_with_agent request w') =
    Ok (ChatResponse.mk false "" (agent_type_of cls) [] ∅ (Some msg)).
Proof.
  intros Hinit Hempty request w'.
  assert (Hn : slot cls w' = None /\
               constructions cls w' = (constructions cls w + n)%nat).
  { subst w'. revert w Hempty. induction n as [|n IH]; intros w Hempty.
    - simpl. split; [exact Hempty | lia].
    - change (after_calls (replicate (S n) (CallChat request)) w)
        with (after_calls (replicate n (CallChat request))
                (snd (chat_with_agent request w))).
      unfold request at 2 4.
      rewrite (chat_with_agent_init_fault cls message context msg w Hinit Hempty).
      cbn [snd].
      destruct (IH (emit (EvLogError ("Error in chat endpoint: " +:+ msg))
                      (emit (EvConstruct cls) w))) as [Hslot Hcount].
      { destruct cls; exact Hempty. }
      split; [exact Hslot |].
      rewrite Hcount, !constructions_emit.
      rewrite (bool_decide_eq_false_2 (EvLogError _ = _)) by congruence.
      rewrite bool_decide_eq_true_2 by reflexivity. lia. }
  destruct Hn as [Hslot Hcount].
  split; [exact Hslot |]. split; [exact Hcount |].
  unfold request.
  rewrite (chat_with_agent_init_fault cls message context msg w' Hinit Hslot).
  reflexivity.
Qed.

Lemma failed_constructor_retried_witness :
  slot ChatAgent
    (after_calls (replicate 3 (CallChat (ChatRequest.mk "hello" "chat" None)))
       (@initial no_chat_key 0%nat)) = None /\
  constructions ChatAgent
    (after_calls (replicate 3 (CallChat (ChatRequest.mk "hello" "chat" None)))
       (@initial no_chat_key 0%nat)) = 3%nat /\
  fst (chat_with_agent (ChatRequest.mk "hello" "chat" None)
         (after_calls (replicate 3 (CallChat (ChatRequest.mk "hello" "chat" None)))
            (@initial no_chat_key 0%nat))) =
    Ok (ChatResponse.mk false "" "chat" [] ∅ (Some "missing API key")).
Proof.
  apply (@failed_constructor_retried no_chat_key ChatAgent "hello" None
           "missing API key" 3 (@initial no_chat_key 0%nat));
    reflexivity.
Defined.

(** ** GET /agents/capabilities: all or nothing *)

Lemma get_agent_capabilities_run `{P : Platform} (w : World) :
  get_agent_capabilities w =
  match agent_init SearchAgent agent_config with
  | Some msg =>
      (Ok (CapabilitiesError msg),
       emit (EvLogError ("Error getting capabilities: " +:+ msg))
         (emit (EvConstruct SearchAgent) w))
  | None =>
      match agent_init ChatAgent agent_config with
      | Some msg =>
          (Ok (CapabilitiesError msg),
           emit (EvLogError ("Error getting capabilities: " +:+ msg))
             (emit (EvConstruct ChatAgent) (emit (EvConstruct SearchAgent) w)))
      | None =>
          (Ok (CapabilitiesOk (agent_capabilities SearchAgent agent_config)
                 (agent_capabilities ChatAgent agent_config)),
           emit (EvConstruct ChatAgent) (emit (EvConstruct SearchAgent) w))
      end
  end.
Proof.
  unfold get_agent_capabilities, try_except.
  unfold bind at 1. rewrite new_agent_run.
  destruct (agent_init SearchAgent agent_config) as [msg|]; [reflexivity |].
  cbv zeta. unfold bind at 1. rewrite new_agent_run.
  destruct (agent_init ChatAgent agent_config) as [msg|]; reflexivity.
Qed.

(** X3: the introspection endpoint never raises, and it reports all
    capabilities or none.  When both constructors return, the answer holds
    the two capability lists that [get_capabilities] gives for a
    [SearchAgent] and for a [ChatAgent] built from [agent_config], and it
    holds capability lists in that case only; when a constructor raises the
    answer is that error alone, and when it is the constructor of the
    search agent that raises, the chat agent is not even constructed. *)
Theorem capabilities_all_or_nothing `{P : Platform} (w : World) :
  exists answer w',
    get_agent_capabilities w = (Ok answer, w') /\
    (agent_init SearchAgent agent_config = None ->
     agent_init ChatAgent agent_config = None ->
     answer =
       CapabilitiesOk (get_capabilities (mkAgent SearchAgent agent_config))
         (get_capabilities (mkAgent ChatAgent agent_config)) /\
     w' = emit (EvConstruct ChatAgent) (emit (EvConstruct SearchAgent) w)) /\
    ((exists search_caps chat_caps, answer = CapabilitiesOk search_caps chat_caps) <->
     agent_init SearchAgent agent_config = None /\
     agent_init ChatAgent agent_config = None) /\
    (forall msg,
       agent_init SearchAgent agent_config = Some msg ->
       answer = CapabilitiesError msg /\
       constructions ChatAgent w' = constructions ChatAgent w) /\
    (forall msg,
       agent_init SearchAgent agent_config = None ->
       agent_init ChatAgent agent_config = Some msg ->
       answer = CapabilitiesError msg).
Proof.
  rewrite get_agent_capabilities_run.
  destruct (agent_init SearchAgent agent_config) as [ms|] eqn:Hs;
    [| destruct (agent_init ChatAgent agent_config) as [mc|] eqn:Hc];
    eexists _, _; (split; [reflexivity |]).
  - split; [intros [=] | split; [| split]].
    + split; [intros (? & ? & [=]) | intros [[=] _]].
    + intros msg [= <-]. split; [reflexivity |].
      rewrite !constructions_emit.
      rewrite !bool_decide_eq_false_2 by congruence. lia.
    + intros msg [=].
  - split; [intros _ [=] | split; [| split]].
    + split; [intros (? & ? & [=]) | intros [_ [=]]].
    + intros msg [=].
    + intros msg _ [= <-]. reflexivity.
  - split; [intros _ _; split; reflexivity | split; [| split]].
    + split; [intros _; split; reflexivity | intros _; eexists _, _; reflexivity].
    + intros msg [=].
    + intros msg _ [=].
Qed.

Lemma capabilities_all_or_nothing_witness :
  @get_agent_capabilities demo (@initial demo 0%nat) =
    (Ok (CapabilitiesOk ["web_search"; "summarize"] ["conversation"]),
     @mkWorld demo None None [] 0%nat [EvConstruct SearchAgent; EvConstruct ChatAgent]) /\
  fst (@get_agent_capabilities no_chat_key (@initial no_chat_key 0%nat)) =
    Ok (CapabilitiesError "missing API key").
Proof.
  split.
  - destruct (@capabilities_all_or_nothing demo (@initial demo 0%nat))
      as (answer & w' & Hrun & Hboth & _).
    destruct (Hboth eq_refl eq_refl) as [-> ->]. exact Hrun.
  - destruct (@capabilities_all_or_nothing no_chat_key (@initial no_chat_key 0%nat))
      as (answer & w' & Hrun & _ & _ & _ & Hchat).
    rewrite Hrun. rewrite (Hchat "missing API key" eq_refl eq_refl). reflexivity.
Defined.

(** ** POST /search: a tool count that is not an integer *)

(** X4: when the search agent reports success but the value under
    [tools_used] in its metadata is not an integer and pydantic rejects it,
    the search dispatcher answers with a failure envelope: the agent's
    summary is dropped, [sources_count] is 0 and the error is the
    validation error, which is logged. *)
Theorem search_rejects_tool_count `{P : Platform} (request : SearchRequest.t)
    (w w1 : World) (a : Agent) (o : Outcome) (e2 : Env) (v : pyval) (msg : string) :
  search_resolve_agent w = (Ok a, w1) ->
  agent_execute (agent_class a) (agent_cfg a)
    (search_prompt_of (SearchRequest.query request)) (Some true) (env w1) = (inr o, e2) ->
  success o = true ->
  metadata o !! "tools_used" = Some v ->
  (forall n, v <> VInt n) ->
  coerce_int v = inl msg ->
  search_and_summarize request w =
  (Ok (SearchResponse.mk false (SearchRequest.query request) "" None 0 (Some msg)),
   emit (EvLogError ("Error in search endpoint: " +:+ msg)) (set_env e2 w1)).
Proof.
  intros Hres Hexec Hok Hv Hnotint Hco.
  rewrite search_and_summarize_run. cbv zeta.
  rewrite Hres, Hexec, Hok.
  unfold dict_get. rewrite Hv. simpl.
  unfold pydantic_int.
  destruct v as [|b|n|s]; try (rewrite Hco; reflexivity).
  exfalso. exact (Hnotint n eq_refl).
Qed.

Lemma search_rejects_tool_count_witness :
  @search_and_summarize many_tools (SearchRequest.mk "rust ownership" 3)
    (@initial many_tools 0%nat) =
  (Ok (SearchResponse.mk false "rust ownership" "" None 0
         (Some "value is not a valid integer")),
   @mkWorld many_tools (Some (@mkAgent many_tools SearchAgent tt)) None [] 0%nat
     [EvConstruct SearchAgent;
      EvLogError "Error in search endpoint: value is not a valid integer"]).
Proof.
  apply (@search_rejects_tool_count many_tools (SearchRequest.mk "rust ownership" 3)
           (@initial many_tools 0%nat)
           (@mkWorld many_tools (Some (@mkAgent many_tools SearchAgent tt)) None []
              0%nat [EvConstruct SearchAgent])
           (@mkAgent many_tools SearchAgent tt)
           (mkOutcome true "Ownership moves values."
              {[ "tools_used" := VStr "many" ]} None)
           0%nat (VStr "many") "value is not a valid integer");
    try reflexivity.
  intros n. discriminate.
Defined.

(** ** Request fields that are never read *)

(** X5: the answer and the state a request leaves do not depend on the
    chat request's [context], on the search request's [max_results], or on
    the generation request's [style]. *)
Theorem unread_request_fields `{P : Platform} :
  (forall r1 r2 w,
     ChatRequest.message r1 = ChatRequest.message r2 ->
     ChatRequest.agent_type r1 = ChatRequest.agent_type r2 ->
     chat_with_agent r1 w = chat_with_agent r2 w) /\
  (forall r1 r2 w,
     SearchRequest.query r1 = SearchRequest.query r2 ->
     search_and_summarize r1 w = search_and_summarize r2 w) /\
  (forall r1 r2 w,
     WallpaperRequest.prompt r1 = WallpaperRequest.prompt r2 ->
     WallpaperRequest.aspect_ratio r1 = WallpaperRequest.aspect_ratio r2 ->
     WallpaperRequest.megapixels r1 = WallpaperRequest.megapixels r2 ->
     generate_wallpaper r1 w = generate_wallpaper r2 w).
Proof.
  split; [| split].
  - intros [m1 t1 c1] [m2 t2 c2] w; simpl; intros -> ->. reflexivity.
  - intros [q1 n1] [q2 n2] w; simpl; intros ->. reflexivity.
  - intros [p1 a1 m1 s1] [p2 a2 m2 s2] w; simpl; intros -> -> ->. reflexivity.
Qed.

Lemma unread_request_fields_witness :
  @chat_with_agent demo (ChatRequest.mk "hello" "chat" None) (@initial demo 0%nat) =
  @chat_with_agent demo (ChatRequest.mk "hello" "chat" (Some {[ "user" := VStr "ada" ]}))
    (@initial demo 0%nat) /\
  @search_and_summarize demo (SearchRequest.mk "rust ownership" 3) (@initial demo 0%nat) =
  @search_and_summarize demo (SearchRequest.mk "rust ownership" 50) (@initial demo 0%nat) /\
  @generate_wallpaper demo (WallpaperRequest.mk "ocean" "9:16" "1" None)
    (@initial demo 0%nat) =
  @generate_wallpaper demo (WallpaperRequest.mk "ocean" "9:16" "1" (Some "oil painting"))
    (@initial demo 0%nat).
Proof.
  destruct (@unread_request_fields demo) as (Hchat & Hsearch & Hgen).
  split; [| split].
  - apply Hchat; reflexivity.
  - apply Hsearch; reflexivity.
  - apply Hgen; reflexivity.
Defined.

(** ** What the endpoints leave alone *)

Ltac keeps_by Hrefl Htrans leaf :=
  cbv zeta;
  repeat lazymatch goal with
  | |- keeps _ (bind _ _) => apply (keeps_bind _ Htrans); [| intros ?]
  | |- keeps _ (try_except _ _) => apply (keeps_try_except _ Htrans); [| intros ?]
  | |- keeps _ (ret _) => apply (keeps_ret _ Hrefl)
  | |- keeps _ (raise _) => apply (keeps_raise _ Hrefl)
  | |- keeps _ (gets _) => apply (keeps_gets _ Hrefl)
  | |- keeps _ (external _) => apply keeps_external; intros ? ?; leaf
  | |- keeps _ (modify _) => apply keeps_modify; intros ?; leaf
  | |- keeps _ (match ?x with _ => _ end) => destruct x
  end.

Section Frames.
Context `{P : Platform}.

Lemma store_kept_refl (w : World) : store_kept w w.
Proof. reflexivity. Qed.

Lemma store_kept_trans (w1 w2 w3 : World) :
  store_kept w1 w2 -> store_kept w2 w3 -> store_kept w1 w3.
Proof. unfold store_kept. congruence. Qed.

Lemma slots_kept_refl (w : World) : slots_kept w w.
Proof. split; reflexivity. Qed.

Lemma slots_kept_trans (w1 w2 w3 : World) :
  slots_kept w1 w2 -> slots_kept w2 w3 -> slots_kept w1 w3.
Proof. unfold slots_kept. intros [? ?] [? ?]. split; congruence. Qed.

Lemma generate_wallpaper_run (request : WallpaperRequest.t) (w : World) :
  generate_wallpaper request w =
  (Raise (HTTPException 503 (VStr not_configured)),
   emit (EvGenerateImage (WallpaperRequest.prompt request)
           (WallpaperRequest.aspect_ratio request)
           (WallpaperRequest.megapixels request)) (identified w)).
Proof.
  unfold generate_wallpaper, generate_wallpaper_with, try_except.
  rewrite (generate_wallpaper_body_run generate_ai_image request w _ _ (VBool false)
             (generate_ai_image_run _ _ _ _)); reflexivity.
Qed.

Lemma store_kept_after_call (c : Call) (w : World) : store_kept w (after_call c w).
Proof.
  destruct c as [request|request| |request| |wallpaper_id]; simpl.
  - revert w. change (keeps store_kept (chat_with_agent request)).
    unfold chat_with_agent, chat_with_agent_body, chat_resolve_agent, new_agent,
      execute, logger_error.
    keeps_by store_kept_refl store_kept_trans ltac:(reflexivity).
  - revert w. change (keeps store_kept (search_and_summarize request)).
    unfold search_and_summarize, search_and_summarize_body, search_resolve_agent,
      new_agent, execute, logger_error, pydantic_int.
    keeps_by store_kept_refl store_kept_trans ltac:(reflexivity).
  - revert w. change (keeps store_kept get_agent_capabilities).
    unfold get_agent_capabilities, new_agent, logger_error.
    keeps_by store_kept_refl store_kept_trans ltac:(reflexivity).
  - rewrite generate_wallpaper_run. reflexivity.
  - revert w. change (keeps store_kept get_wallpapers).
    unfold get_wallpapers, find_sort_to_list, db_call, logger_error.
    keeps_by store_kept_refl store_kept_trans ltac:(reflexivity).
  - revert w. change (keeps store_kept (get_wallpaper wallpaper_id)).
    unfold get_wallpaper, find_one, db_call, logger_error.
    keeps_by store_kept_refl store_kept_trans ltac:(reflexivity).
Qed.

Lemma slots_kept_after_call (c : Call) (w : World) :
  dispatches c = false -> slots_kept w (after_call c w).
Proof.
  destruct c as [request|request| |request| |wallpaper_id]; simpl;
    try discriminate; intros _.
  - revert w. change (keeps slots_kept get_agent_capabilities).
    unfold get_agent_capabilities, new_agent, logger_error.
    keeps_by slots_kept_refl slots_kept_trans ltac:(split; reflexivity).
  - rewrite generate_wallpaper_run. split; reflexivity.
  - revert w. change (keeps slots_kept get_wallpapers).
    unfold get_wallpapers, find_sort_to_list, db_call, logger_error.
    keeps_by slots_kept_refl slots_kept_trans ltac:(split; reflexivity).
  - revert w. change (keeps slots_kept (get_wallpaper wallpaper_id)).
    unfold get_wallpaper, find_one, db_call, logger_error.
    keeps_by slots_kept_refl slots_kept_trans ltac:(split; reflexivity).
Qed.

End Frames.

(** X6: as the generator is never configured, no endpoint writes the store:
    after any sequence of requests [db.wallpapers] holds exactly the
    documents it held before. *)
Theorem store_never_written `{P : Platform} (cs : list Call) (w : World) :
  wallpapers (after_calls cs w) = wallpapers w.
Proof.
  revert w. induction cs as [|c cs IH]; intros w; simpl; [reflexivity |].
  change (fold_left (fun w c => after_call c w) cs (after_call c w))
    with (after_calls cs (after_call c w)).
  rewrite IH. apply store_kept_after_call.
Qed.

(** X7: only the two dispatchers assign the agent globals: after any
    sequence of requests to the other endpoints (introspection, generation,
    listing, lookup) [search_agent] and [chat_agent] are what they were. *)
Theorem only_dispatchers_assign_agents `{P : Platform} (cs : list Call) (w : World) :
  forallb (fun c => negb (dispatches c)) cs = true ->
  search_agent (after_calls cs w) = search_agent w /\
  chat_agent (after_calls cs w) = chat_agent w.
Proof.
  revert w. induction cs as [|c cs IH]; intros w Hcs; simpl.
  - split; reflexivity.
  - simpl in Hcs. apply andb_prop in Hcs as [Hc Hcs].
    apply negb_true_iff in Hc.
    change (fold_left (fun w c => after_call c w) cs (after_call c w))
      with (after_calls cs (after_call c w)).
    destruct (IH (after_call c w) Hcs) as [Hs Hch].
    destruct (slots_kept_after_call c w Hc) as [Hs' Hch'].
    split; congruence.
Qed.

Lemma only_dispatchers_assign_agents_witness :
  search_agent
    (after_calls
       [CallCapabilities; CallGenerate (WallpaperRequest.mk "ocean" "9:16" "1" None);
        CallList; CallGet "a"]
       (@mkWorld demo None (Some (@mkAgent demo ChatAgent tt)) three_wallpapers 0%nat []))
    = None /\
  chat_agent
    (after_calls
       [CallCapabilities; CallGenerate (WallpaperRequest.mk "ocean" "9:16" "1" None);
        CallList; CallGet "a"]
       (@mkWorld demo None (Some (@mkAgent demo ChatAgent tt)) three_wallpapers 0%nat []))
    = Some (@mkAgent demo ChatAgent tt).
Proof.
  apply (@only_dispatchers_assign_agents demo
           [CallCapabilities; CallGenerate (WallpaperRequest.mk "ocean" "9:16" "1" None);
            CallList; CallGet "a"]
           (@mkWorld demo None (Some (@mkAgent demo ChatAgent tt)) three_wallpapers
              0%nat [])).
  reflexivity.
Defined.

(** ** One agent per kind *)

Section Budget.
Context `{P : Platform}.
Variable cls : AgentClass.
Hypothesis Hinit : agent_init cls agent_config = None.

Lemma budget_kept_refl (w : World) : budget_kept cls w w.
Proof. unfold budget_kept. lia. Qed.

Lemma budget_kept_trans (w1 w2 w3 : World) :
  budget_kept cls w1 w2 -> budget_kept cls w2 w3 -> budget_kept cls w1 w3.
Proof. unfold budget_kept. lia. Qed.

Lemma slot_set_env (k : AgentClass) (e : Env) (w : World) :
  slot k (set_env e w) = slot k w.
Proof. destruct k; reflexivity. Qed.

Lemma slot_emit (k : AgentClass) (ev : Event) (w : World) :
  slot k (emit ev w) = slot k w.
Proof. destruct k; reflexivity. Qed.

Lemma budget_kept_set_env (e : Env) (w : World) : budget_kept cls w (set_env e w).
Proof.
  unfold budget_kept, construction_budget. rewrite slot_set_env.
  change (constructions cls (set_env e w)) with (constructions cls w). lia.
Qed.

Lemma budget_kept_log (line : string) (w : World) :
  budget_kept cls w (emit (EvLogError line) w).
Proof.
  unfold budget_kept, construction_budget. rewrite constructions_emit, slot_emit.
  rewrite bool_decide_eq_false_2 by congruence. lia.
Qed.

(** Building the agent of a kind and, if the constructor returns, storing
    it in the kind's empty slot. *)
Definition build_and_store (k : AgentClass) : M unit :=
  bind (new_agent k)
    (fun a => modify (match k with
                      | SearchAgent => set_search_agent (Some a)
                      | ChatAgent => set_chat_agent (Some a)
                      end)).

Lemma budget_kept_build_and_store (k : AgentClass) (w : World) :
  slot k w = None -> budget_kept cls w (snd (build_and_store k w)).
Proof.
  intros Hempty. unfold build_and_store, bind. rewrite new_agent_run.
  assert (Hsearch : forall x w0, constructions cls (set_search_agent x w0) =
                                 constructions cls w0) by reflexivity.
  assert (Hchat : forall x w0, constructions cls (set_chat_agent x w0) =
                               constructions cls w0) by reflexivity.
  unfold budget_kept, construction_budget.
  destruct (agent_init k agent_config) as [msg|] eqn:Hk; simpl.
  - rewrite constructions_emit.
    destruct (bool_decide_reflect (EvConstruct k = EvConstruct cls)) as [Heq|Hne].
    + injection Heq as ->. congruence.
    + rewrite slot_emit. lia.
  - unfold modify. cbn [snd].
    destruct k, cls; rewrite ?Hsearch, ?Hchat, constructions_emit; simpl in *;
      rewrite ?Hempty; lia.
Qed.

Lemma keeps_budget_chat_resolve_agent (agent_type : string) :
  keeps (budget_kept cls) (chat_resolve_agent agent_type).
Proof.
  intros w. unfold chat_resolve_agent.
  unfold bind at 1 2. unfold gets at 1 2. cbn [fst snd].
  destruct (String.eqb_spec agent_type "search") as [->|Hs]; simpl.
  - destruct (search_agent w) as [a|] eqn:Hsa; simpl.
    + unfold bind, ret, gets. simpl. rewrite Hsa. apply budget_kept_refl.
    + pose proof (budget_kept_build_and_store SearchAgent w Hsa) as Hb.
      unfold build_and_store in Hb. unfold bind at 1.
      destruct (bind (new_agent SearchAgent) _ w) as [[[]|e] w1]; simpl in *.
      * unfold bind, gets, ret, raise. simpl. destruct (search_agent w1); exact Hb.
      * exact Hb.
  - destruct (String.eqb_spec agent_type "chat") as [->|Hc]; simpl.
    + destruct (chat_agent w) as [a|] eqn:Hca; simpl.
      * unfold bind, ret, gets. simpl. rewrite Hca. apply budget_kept_refl.
      * pose proof (budget_kept_build_and_store ChatAgent w Hca) as Hb.
        unfold build_and_store in Hb. unfold bind at 1.
        destruct (bind (new_agent ChatAgent) _ w) as [[[]|e] w1]; simpl in *.
        -- unfold bind, gets, ret, raise. simpl. destruct (chat_agent w1); exact Hb.
        -- exact Hb.
    + unfold bind, ret, gets. simpl.
      destruct (chat_agent w); apply budget_kept_refl.
Qed.

Lemma keeps_budget_search_resolve_agent :
  keeps (budget_kept cls) search_resolve_agent.
Proof.
  intros w. unfold search_resolve_agent.
  unfold bind at 1. unfold gets at 1. cbn [fst snd].
  destruct (search_agent w) as [a|] eqn:Hsa; simpl.
  - unfold bind, ret, gets. simpl. rewrite Hsa. apply budget_kept_refl.
  - pose proof (budget_kept_build_and_store SearchAgent w Hsa) as Hb.
    unfold build_and_store in Hb. unfold bind at 1.
    destruct (bind (new_agent SearchAgent) _ w) as [[[]|e] w1]; simpl in *.
    + unfold bind, gets, ret, raise. simpl. destruct (search_agent w1); exact Hb.
    + exact Hb.
Qed.

Lemma budget_kept_after_call (c : Call) (w : World) :
  dispatches c = true -> budget_kept cls w (after_call c w).
Proof.
  destruct c as [request|request| |request| |wallpaper_id]; simpl;
    try discriminate; intros _.
  - revert w. change (keeps (budget_kept cls) (chat_with_agent request)).
    unfold chat_with_agent, chat_with_agent_body, execute, logger_error.
    keeps_by budget_kept_refl budget_kept_trans
      ltac:(first [apply budget_kept_set_env | apply budget_kept_log]).
    apply keeps_budget_chat_resolve_agent.
  - revert w. change (keeps (budget_kept cls) (search_and_summarize request)).
    unfold search_and_summarize, search_and_summarize_body, execute, logger_error,
      pydantic_int.
    keeps_by budget_kept_refl budget_kept_trans
      ltac:(first [apply budget_kept_set_env | apply budget_kept_log]).
    apply keeps_budget_search_resolve_agent.
Qed.

End Budget.

(** X8: the dispatchers build at most one agent per kind.  When the
    constructor of a kind does not raise, any sequence of chat and search
    requests calls it at most once if the kind's slot is empty at the start,
    and never if the slot is filled. *)
Theorem one_construction_per_kind `{P : Platform} (cls : AgentClass)
    (cs : list Call) (w : World) :
  agent_init cls agent_config = None ->
  forallb dispatches cs = true ->
  (constructions cls (after_calls cs w) <=
   constructions cls w + match slot cls w with Some _ => 0 | None => 1 end)%nat.
Proof.
  intros Hinit Hcs.
  assert (Hbudget : budget_kept cls w (after_calls cs w)).
  { revert w. induction cs as [|c cs IH]; intros w; simpl.
    - apply budget_kept_refl.
    - simpl in Hcs. apply andb_prop in Hcs as [Hc Hcs].
      change (fold_left (fun w c => after_call c w) cs (after_call c w))
        with (after_calls cs (after_call c w)).
      eapply budget_kept_trans; [exact (budget_kept_after_call cls Hinit c w Hc) |].
      apply (IH Hcs). }
  unfold budget_kept, construction_budget in Hbudget. lia.
Qed.

Lemma one_construction_per_kind_witness :
  (constructions ChatAgent
     (after_calls
        [CallChat (ChatRequest.mk "hello" "chat" None);
         CallSearch (SearchRequest.mk "rust ownership" 3);
         CallChat (ChatRequest.mk "and then?" "chat" None)]
        (@initial demo 0%nat)) <= 0 + 1)%nat.
Proof.
  apply (@one_construction_per_kind demo ChatAgent
           [CallChat (ChatRequest.mk "hello" "chat" None);
            CallSearch (SearchRequest.mk "rust ownership" 3);
            CallChat (ChatRequest.mk "and then?" "chat" None)]
           (@initial demo 0%nat));
    reflexivity.
Defined.

(** ** GET /wallpapers/{wallpaper_id}: what it can answer *)

Lemma get_wallpaper_run `{P : Platform} (wallpaper_id : string) (w : World) :
  get_wallpaper wallpaper_id w =
  let w1 := set_env (snd (db_fault (env w))) w in
  let fault e :=
    (Raise (HTTPException 500 (VStr (str e))),
     emit (EvLogError ("Error getting wallpaper: " +:+ str e)) w1) in
  match fst (db_fault (env w)) with
  | Some msg => fault (Exception msg)
  | None =>
      match List.find (fun d => String.eqb (Wallpaper.id d) wallpaper_id)
              (wallpapers w) with
      | Some d => (Ok (response_of d), w1)
      | None => fault (HTTPException 404 (VStr "Wallpaper not found"))
      end
  end.
Proof.
  unfold get_wallpaper, try_except, find_one.
  unfold bind at 1. unfold bind at 1. rewrite db_call_run.
  destruct (fst (db_fault (env w))) as [msg|]; [reflexivity |].
  unfold gets. simpl.
  destruct (List.find _ (wallpapers w)); reflexivity.
Qed.

(** X9: when the store answers and holds a generation with the identifier,
    the lookup returns the response built from the first such document in
    the collection: its [id] is the identifier asked for, [preview_url]
    repeats [image_url], and the collection is left as it was. *)
Theorem get_wallpaper_found `{P : Platform} (wallpaper_id : string) (w : World)
    (before after : list Wallpaper.t) (d : Wallpaper.t) :
  fst (db_fault (env w)) = None ->
  wallpapers w = (before ++ d :: after)%list ->
  Forall (fun d' => Wallpaper.id d' <> wallpaper_id) before ->
  Wallpaper.id d = wallpaper_id ->
  exists w',
    get_wallpaper wallpaper_id w =
      (Ok (WallpaperResponse.mk true wallpaper_id (Wallpaper.prompt d)
             (Some (Wallpaper.image_url d)) (Some (Wallpaper.image_url d))
             (Wallpaper.created_at d) None), w') /\
    wallpapers w' = wallpapers w.
Proof.
  intros Hdb Hsplit Hbefore Hid.
  rewrite get_wallpaper_run. cbv zeta. rewrite Hdb, Hsplit.
  assert (Hfind : List.find (fun d' => String.eqb (Wallpaper.id d') wallpaper_id)
                    (before ++ d :: after) = Some d).
  { clear Hsplit. induction Hbefore as [|d' l Hd' _ IH]; simpl.
    - rewrite Hid, String.eqb_refl. reflexivity.
    - destruct (String.eqb_spec (Wallpaper.id d') wallpaper_id); [contradiction |].
      exact IH. }
  rewrite Hfind. eexists. split.
  - unfold response_of. rewrite Hid. reflexivity.
  - simpl. exact Hsplit.
Qed.

Lemma get_wallpaper_found_witness :
  exists w',
    @get_wallpaper demo "b" (@mkWorld demo None None three_wallpapers 0%nat []) =
      (Ok (WallpaperResponse.mk true "b" "forest" (Some "u2") (Some "u2") 2 None), w') /\
    wallpapers w' = three_wallpapers.
Proof.
  apply (@get_wallpaper_found demo "b"
           (@mkWorld demo None None three_wallpapers 0%nat [])
           [Wallpaper.mk "a" "ocean" "9:16" "u1" "d1" 1]
           [Wallpaper.mk "c" "desert" "9:16" "u3" "d3" 3]
           (Wallpaper.mk "b" "forest" "9:16" "u2" "d2" 2));
    try reflexivity.
  repeat constructor. discriminate.
Defined.

(** X10: the lookup answers in two ways only: with the response of a stored
    document that has the identifier, or with [HTTPException] of status
    500.  No identifier and no state of the store makes it raise the 404 it
    constructs, or any other status. *)
Theorem get_wallpaper_ok_or_500 `{P : Platform} (wallpaper_id : string) (w : World) :
  (exists d,
     d ∈ wallpapers w /\ Wallpaper.id d = wallpaper_id /\
     fst (get_wallpaper wallpaper_id w) = Ok (response_of d)) \/
  (exists detail,
     fst (get_wallpaper wallpaper_id w) = Raise (HTTPException 500 (VStr detail))).
Proof.
  rewrite get_wallpaper_run. cbv zeta.
  destruct (fst (db_fault (env w))) as [msg|].
  - right. eexists. reflexivity.
  - destruct (List.find _ (wallpapers w)) as [d|] eqn:Hfind.
    + left. exists d. apply List.find_some in Hfind as [Hin Heq].
      split; [apply list_elem_of_In, Hin |].
      split; [apply String.eqb_eq, Heq | reflexivity].
    + right. eexists. reflexivity.
Qed.

(** ** POST /wallpapers/generate: the pipeline past the generator *)

Lemma db_call_ok `{P : Platform} (w : World) (e' : Env) :
  db_fault (env w) = (None, e') -> db_call w = (Ok tt, set_env e' w).
Proof. intros H. rewrite db_call_run, H. reflexivity. Qed.

(** The pipeline when the generator succeeds and the store takes the
    record. *)
Lemma generate_wallpaper_body_stored `{P : Platform}
    (generate : string -> string -> string -> M (gmap string pyval))
    (request : WallpaperRequest.t) (w w2 : World)
    (image_result : gmap string pyval) (ok : pyval) (url data : string) (e3 : Env) :
  generate (WallpaperRequest.prompt request) (WallpaperRequest.aspect_ratio request)
    (WallpaperRequest.megapixels request) (identified w) = (Ok image_result, w2) ->
  image_result !! "success" = Some ok ->
  truthy ok = true ->
  image_result !! "image_url" = Some (VStr url) ->
  image_result !! "image_data" = Some (VStr data) ->
  db_fault (snd (utcnow (env w2))) = (None, e3) ->
  generate_wallpaper_body generate request w =
  (Ok (WallpaperResponse.mk true (fst (uuid4 (env w)))
         (WallpaperRequest.prompt request) (Some url) (Some url)
         (fst (utcnow e3)) None),
   set_env (snd (utcnow e3))
     (set_wallpapers
        (wallpapers w2 ++
         [Wallpaper.mk (fst (uuid4 (env w))) (WallpaperRequest.prompt request)
            (WallpaperRequest.aspect_ratio request) url data
            (bson_datetime (fst (utcnow (env w2))))])
        w2)).
Proof.
  intros Hgen Hok Htruthy Hurl Hdata Hdb.
  unfold generate_wallpaper_body.
  rewrite (bind_ok _ _ _ _ _ (uuid4_run w)).
  rewrite (bind_ok _ _ _ _ _ Hgen).
  rewrite (bind_ok _ _ _ _ _ (dict_item_run _ _ _ _ Hok)).
  rewrite Htruthy. cbn [negb].
  rewrite (bind_ok _ _ _ _ _ (dict_item_run _ _ _ _ Hurl)).
  rewrite (bind_ok _ _ _ _ _ (dict_item_run _ _ _ _ Hdata)).
  unfold pydantic_str at 1 2.
  rewrite (bind_ok _ _ w2 w2 url eq_refl).
  rewrite (bind_ok _ _ w2 w2 data eq_refl).
  rewrite (bind_ok _ _ _ _ _ (now_run w2)).
  cbv zeta.
  assert (Hinsert : forall doc,
    insert_one doc (set_env (snd (utcnow (env w2))) w2) =
    (Ok tt, set_wallpapers (wallpapers w2 ++ [stored_wallpaper doc]) (set_env e3 w2))).
  { intros doc. unfold insert_one.
    rewrite (bind_ok _ _ _ _ _
               (db_call_ok (set_env (snd (utcnow (env w2))) w2) e3 Hdb)).
    reflexivity. }
  rewrite (bind_ok _ _ _ _ _ (Hinsert _)).
  rewrite (bind_ok _ _ _ _ _ (dict_item_run _ _ _ _ Hurl)).
  rewrite (bind_ok _ _ _ _ _ (dict_item_run _ _ _ _ Hurl)).
  assert (Hopt : forall w0 : World,
            pydantic_optional_str (VStr url) w0 = (Ok (Some url), w0))
    by reflexivity.
  rewrite (bind_ok _ _ _ _ _ (Hopt _)).
  rewrite (bind_ok _ _ _ _ _ (Hopt _)).
  rewrite (bind_ok _ _ _ _ _ (now_run _)).
  reflexivity.
Qed.

(** X11: insert then look up.  When the generator reports success with an
    image reference and payload and the store answers, the pipeline appends
    one record with a freshly drawn identifier, the request's prompt and
    aspect ratio, the generator's image and the instant read from the clock
    before the insert, which the store keeps rounded down to the
    millisecond; it returns that identifier, with a [created_at] read from
    the clock after the insert.  If no older record has the same
    identifier, a lookup of it then returns the request's prompt, the same
    image reference, and the stored, rounded instant. *)
Theorem generate_then_lookup `{P : Platform}
    (generate : string -> string -> string -> M (gmap string pyval))
    (request : WallpaperRequest.t) (w w2 : World)
    (image_result : gmap string pyval) (ok : pyval) (url data : string)
    (e3 e5 : Env) :
  generate (WallpaperRequest.prompt request) (WallpaperRequest.aspect_ratio request)
    (WallpaperRequest.megapixels request) (identified w) = (Ok image_result, w2) ->
  image_result !! "success" = Some ok ->
  truthy ok = true ->
  image_result !! "image_url" = Some (VStr url) ->
  image_result !! "image_data" = Some (VStr data) ->
  db_fault (snd (utcnow (env w2))) = (None, e3) ->
  db_fault (snd (utcnow e3)) = (None, e5) ->
  Forall (fun d => Wallpaper.id d <> fst (uuid4 (env w))) (wallpapers w2) ->
  exists w',
    generate_wallpaper_with generate request w =
      (Ok (WallpaperResponse.mk true (fst (uuid4 (env w)))
             (WallpaperRequest.prompt request) (Some url) (Some url)
             (fst (utcnow e3)) None), w') /\
    wallpapers w' =
      (wallpapers w2 ++
       [Wallpaper.mk (fst (uuid4 (env w))) (WallpaperRequest.prompt request)
          (WallpaperRequest.aspect_ratio request) url data
          (1000 * (fst (utcnow (env w2)) / 1000))])%list /\
    fst (get_wallpaper (fst (uuid4 (env w))) w') =
      Ok (WallpaperResponse.mk true (fst (uuid4 (env w)))
            (WallpaperRequest.prompt request) (Some url) (Some url)
            (1000 * (fst (utcnow (env w2)) / 1000)) None).
Proof.
  intros Hgen Hok Htruthy Hurl Hdata Hdb Hdb' Hfresh.
  eexists. split.
  - unfold generate_wallpaper_with, try_except.
    rewrite (generate_wallpaper_body_stored _ _ _ _ _ _ _ _ _
               Hgen Hok Htruthy Hurl Hdata Hdb).
    reflexivity.
  - split; [reflexivity |].
    rewrite get_wallpaper_run. cbv zeta. cbn [env set_env set_wallpapers wallpapers].
    rewrite Hdb'. cbn [fst].
    assert (Hfind : forall doc,
      Wallpaper.id doc = fst (uuid4 (env w)) ->
      List.find (fun d => String.eqb (Wallpaper.id d) (fst (uuid4 (env w))))
        (wallpapers w2 ++ [doc]) = Some doc).
    { intros doc Hid. induction Hfresh as [|d l Hd _ IH]; simpl.
      - rewrite Hid, String.eqb_refl. reflexivity.
      - destruct (String.eqb_spec (Wallpaper.id d) (fst (uuid4 (env w))));
          [contradiction | exact IH]. }
    rewrite Hfind by reflexivity. reflexivity.
Qed.

Lemma generate_then_lookup_witness :
  exists w',
    @generate_wallpaper_with late_2023 working_generator
      (WallpaperRequest.mk "ocean" "9:16" "1" None) (@initial late_2023 0%Z) =
      (Ok (WallpaperResponse.mk true "6f1c" "ocean"
             (Some "https://images.example/1.png")
             (Some "https://images.example/1.png") 1700000000920727 None), w') /\
    wallpapers w' =
      [Wallpaper.mk "6f1c" "ocean" "9:16" "https://images.example/1.png"
         "iVBORw0KGgo=" 1700000000920000] /\
    fst (@get_wallpaper late_2023 "6f1c" w') =
      Ok (WallpaperResponse.mk true "6f1c" "ocean"
            (Some "https://images.example/1.png")
            (Some "https://images.example/1.png") 1700000000920000 None).
Proof.
  apply (@generate_then_lookup late_2023 working_generator
           (WallpaperRequest.mk "ocean" "9:16" "1" None) (@initial late_2023 0%Z)
           (@mkWorld late_2023 None None [] 0%Z [])
           {[ "success" := VBool true;
              "image_url" := VStr "https://images.example/1.png";
              "image_data" := VStr "iVBORw0KGgo=" ]}
           (VBool true) "https://images.example/1.png" "iVBORw0KGgo=" 1%Z 2%Z);
    try reflexivity.
  constructor.
Defined.

(** X12: a generator result with a key missing.  Without ["success"] the
    [KeyError] is converted to a 500 whose detail is the quoted key; with a
    falsy ["success"] and no ["error"] the 503 carries the default
    explanation "Failed to generate image"; with a truthy ["success"] and
    no ["image_url"] the [KeyError] is converted to a 500.  In all three no
    record is inserted. *)
Theorem generator_result_missing_key `{P : Platform}
    (generate : string -> string -> string -> M (gmap string pyval))
    (request : WallpaperRequest.t) (w w2 : World) (image_result : gmap string pyval) :
  generate (WallpaperRequest.prompt request) (WallpaperRequest.aspect_ratio request)
    (WallpaperRequest.megapixels request) (identified w) = (Ok image_result, w2) ->
  (image_result !! "success" = None ->
   generate_wallpaper_with generate request w =
   (Raise (HTTPException 500 (VStr "'success'")),
    emit (EvLogError "Error generating wallpaper: 'success'") w2)) /\
  (forall ok,
     image_result !! "success" = Some ok -> truthy ok = false ->
     image_result !! "error" = None ->
     generate_wallpaper_with generate request w =
     (Raise (HTTPException 503 (VStr "Failed to generate image")), w2)) /\
  (forall ok,
     image_result !! "success" = Some ok -> truthy ok = true ->
     image_result !! "image_url" = None ->
     generate_wallpaper_with generate request w =
     (Raise (HTTPException 500 (VStr "'image_url'")),
      emit (EvLogError "Error generating wallpaper: 'image_url'") w2)).
Proof.
  intros Hgen. split; [| split].
  - intros Hnone.
    unfold generate_wallpaper_with, try_except, generate_wallpaper_body.
    rewrite (bind_ok _ _ _ _ _ (uuid4_run w)).
    rewrite (bind_ok _ _ _ _ _ Hgen).
    unfold dict_item at 1. rewrite Hnone. reflexivity.
  - intros ok Hok Hfalsy Herr.
    unfold generate_wallpaper_with, try_except.
    rewrite (generate_wallpaper_body_run _ _ _ _ _ _ Hgen Hok Hfalsy).
    unfold dict_get. rewrite Herr. reflexivity.
  - intros ok Hok Htruthy Hurl.
    unfold generate_wallpaper_with, try_except, generate_wallpaper_body.
    rewrite (bind_ok _ _ _ _ _ (uuid4_run w)).
    rewrite (bind_ok _ _ _ _ _ Hgen).
    rewrite (bind_ok _ _ _ _ _ (dict_item_run _ _ _ _ Hok)).
    rewrite Htruthy. cbn [negb].
    unfold dict_item at 1. rewrite Hurl. reflexivity.
Qed.

Lemma generator_result_missing_key_witness :
  @generate_wallpaper_with demo (fun _ _ _ => ret ∅)
    (WallpaperRequest.mk "ocean" "9:16" "1" None) (@initial demo 0%nat) =
    (Raise (HTTPException 500 (VStr "'success'")),
     @mkWorld demo None None [] 1%nat
       [EvLogError "Error generating wallpaper: 'success'"]) /\
  @generate_wallpaper_with demo (fun _ _ _ => ret {[ "success" := VBool false ]})
    (WallpaperRequest.mk "ocean" "9:16" "1" None) (@initial demo 0%nat) =
    (Raise (HTTPException 503 (VStr "Failed to generate image")),
     @mkWorld demo None None [] 1%nat []) /\
  @generate_wallpaper_with demo (fun _ _ _ => ret {[ "success" := VBool true ]})
    (WallpaperRequest.mk "ocean" "9:16" "1" None) (@initial demo 0%nat) =
    (Raise (HTTPException 500 (VStr "'image_url'")),
     @mkWorld demo None None [] 1%nat
       [EvLogError "Error generating wallpaper: 'image_url'"]).
Proof.
  split; [| split].
  - apply (proj1 (@generator_result_missing_key demo (fun _ _ _ => ret ∅)
                    (WallpaperRequest.mk "ocean" "9:16" "1" None) (@initial demo 0%nat)
                    (@mkWorld demo None None [] 1%nat []) ∅ eq_refl)).
    reflexivity.
  - apply (proj1 (proj2 (@generator_result_missing_key demo
                    (fun _ _ _ => ret {[ "success" := VBool false ]})
                    (WallpaperRequest.mk "ocean" "9:16" "1" None) (@initial demo 0%nat)
                    (@mkWorld demo None None [] 1%nat [])
                    {[ "success" := VBool false ]} eq_refl)) (VBool false));
      reflexivity.
  - apply (proj2 (proj2 (@generator_result_missing_key demo
                    (fun _ _ _ => ret {[ "success" := VBool true ]})
                    (WallpaperRequest.mk "ocean" "9:16" "1" None) (@initial demo 0%nat)
                    (@mkWorld demo None None [] 1%nat [])
                    {[ "success" := VBool true ]} eq_refl)) (VBool true));
      reflexivity.
Defined.

(** ** GET /wallpapers: any collection *)

Lemma sorted_response_of_desc (l : list Wallpaper.t) :
  StronglySorted created_at_desc l ->
  StronglySorted not_older (map response_of l).
Proof.
  induction l as [|x l IH]; intros Hsorted; simpl; [constructor |].
  apply StronglySorted_cons in Hsorted as [Hhd Hsorted].
  apply StronglySorted_cons. split; [| apply IH, Hsorted].
  rewrite Forall_forall in Hhd. rewrite Forall_forall. intros r Hr.
  apply list_elem_of_fmap in Hr as (y & -> & Hy).
  apply Hhd, Hy.
Qed.

(** X13: when the store answers, the listing holds exactly
    [min 100 n] responses for a collection of [n] documents, whatever their
    instants (equal ones included): they are in descending order of
    [created_at], each is built from a stored document, has
    [success = true], no [error] and [preview_url] equal to [image_url],
    and the collection is left as it was. *)
Theorem listing_page `{P : Platform} (w : World) :
  fst (db_fault (env w)) = None ->
  exists l w',
    get_wallpapers w = (Ok l, w') /\
    length l = Nat.min 100 (length (wallpapers w)) /\
    StronglySorted not_older l /\
    Forall (fun r =>
              (exists d, d ∈ wallpapers w /\ r = response_of d) /\
              WallpaperResponse.success r = true /\
              WallpaperResponse.error r = None /\
              WallpaperResponse.preview_url r = WallpaperResponse.image_url r) l /\
    wallpapers w' = wallpapers w.
Proof.
  intros Hdb.
  unfold get_wallpapers, try_except, find_sort_to_list.
  unfold bind at 1. unfold bind at 1. rewrite db_call_run, Hdb.
  unfold gets, ret. simpl.
  pose proof (merge_sort_Permutation created_at_desc (wallpapers w)) as Hperm.
  eexists _, _. split; [reflexivity |].
  split; [| split; [| split]].
  - rewrite length_map, length_take, Hperm. reflexivity.
  - apply sorted_response_of_desc.
    assert (Hs : StronglySorted created_at_desc
                   (take 100 (merge_sort created_at_desc (wallpapers w)) ++
                    drop 100 (merge_sort created_at_desc (wallpapers w)))).
    { rewrite take_drop. apply StronglySorted_merge_sort; apply _. }
    exact (StronglySorted_app_1_l _ _ _ Hs).
  - rewrite Forall_forall. intros r Hr.
    apply list_elem_of_fmap in Hr as (d & -> & Hd).
    split; [| repeat split].
    exists d. split; [| reflexivity].
    rewrite <- Hperm. exact (subseteq_take 100 _ d Hd).
  - reflexivity.
Qed.

Lemma listing_page_witness :
  exists l w',
    @get_wallpapers demo (@mkWorld demo None None three_wallpapers 0%nat []) = (Ok l, w') /\
    length l = Nat.min 100 3 /\
    StronglySorted not_older l /\
    Forall (fun r =>
              (exists d, d ∈ three_wallpapers /\ r = response_of d) /\
              WallpaperResponse.success r = true /\
              WallpaperResponse.error r = None /\
              WallpaperResponse.preview_url r = WallpaperResponse.image_url r) l /\
    wallpapers w' = three_wallpapers.
Proof.
  apply (@listing_page demo (@mkWorld demo None None three_wallpapers 0%nat [])).
  reflexivity.
Defined.

(** ** POST /status and GET /status *)

(** X14: create then list.  When the store takes the new status check, the
    handler returns an object with the caller's [client_name], a freshly
    drawn [id] and the current instant, and the collection gets that
    document with the instant rounded down to the millisecond; a listing
    that follows returns the first 1000 documents in insertion order, so
    it ends with the new document as stored (same [id] and [client_name],
    rounded [timestamp]) when the collection held fewer than 1000
    documents before, and does not hold it when the collection held 1000
    or more. *)
Theorem status_create_then_list `{P : Platform} (input : StatusCheckCreate.t)
    (status_checks : list StatusCheck.t) (w : World) (e3 e4 : Env) :
  db_fault (snd (utcnow (snd (uuid4 (env w))))) = (None, e3) ->
  db_fault e3 = (None, e4) ->
  let id := fst (uuid4 (env w)) in
  let timestamp := fst (utcnow (snd (uuid4 (env w)))) in
  let status_obj :=
    StatusCheck.mk id (StatusCheckCreate.client_name input) timestamp in
  let stored :=
    StatusCheck.mk id (StatusCheckCreate.client_name input)
      (1000 * (timestamp / 1000)) in
  create_status_check input status_checks w =
    (Ok (status_obj, (status_checks ++ [stored])%list), set_env e3 w) /\
  ((length status_checks < 1000)%nat ->
   get_status_checks (status_checks ++ [stored]) (set_env e3 w) =
     (Ok (status_checks ++ [stored])%list, set_env e4 w)) /\
  ((1000 <= length status_checks)%nat ->
   get_status_checks (status_checks ++ [stored]) (set_env e3 w) =
     (Ok (take 1000 status_checks), set_env e4 w)).
Proof.
  intros Hdb Hdb' id timestamp status_obj stored.
  assert (Hlist : forall l, get_status_checks l (set_env e3 w) =
                            (Ok (take 1000 l), set_env e4 w)).
  { intros l. unfold get_status_checks.
    rewrite (bind_ok _ _ _ _ _ (db_call_ok (set_env e3 w) e4 Hdb')). reflexivity. }
  split; [| split].
  - unfold create_status_check.
    rewrite (bind_ok _ _ _ _ _ (uuid4_run w)).
    rewrite (bind_ok _ _ _ _ _ (now_run _)).
    cbv zeta.
    rewrite (bind_ok _ _ _ _ _
               (db_call_ok (set_env (snd (utcnow (env (identified w)))) (identified w))
                  e3 Hdb)).
    reflexivity.
  - intros Hlen. rewrite Hlist. rewrite take_ge; [reflexivity |].
    rewrite length_app. simpl. lia.
  - intros Hlen. rewrite Hlist. rewrite take_app_le by exact Hlen. reflexivity.
Qed.

Lemma status_create_then_list_witness :
  @create_status_check late_2023 (StatusCheckCreate.mk "kiosk-7") []
    (@initial late_2023 0%Z) =
    (Ok (StatusCheck.mk "6f1c" "kiosk-7" 1700000000920726,
         [StatusCheck.mk "6f1c" "kiosk-7" 1700000000920000]),
     @mkWorld late_2023 None None [] 1%Z []) /\
  @get_status_checks late_2023 [StatusCheck.mk "6f1c" "kiosk-7" 1700000000920000]
    (@mkWorld late_2023 None None [] 1%Z []) =
    (Ok [StatusCheck.mk "6f1c" "kiosk-7" 1700000000920000],
     @mkWorld late_2023 None None [] 1%Z []).
Proof.
  destruct (@status_create_then_list late_2023 (StatusCheckCreate.mk "kiosk-7") []
              (@initial late_2023 0%Z) 1%Z 1%Z eq_refl eq_refl)
    as (Hcreate & Hshort & _).
  split; [exact Hcreate |].
  apply Hshort. simpl. lia.
Defined.

(** X15: the status handlers have no [try] block: when the driver raises,
    the exception leaves the handler as it is (it is not turned into an
    envelope or an [HTTPException]), nothing is logged, and a failed create
    hands back no collection, so nothing is stored. *)
Theorem status_faults_propagate `{P : Platform} (input : StatusCheckCreate.t)
    (status_checks : list StatusCheck.t) (w : World) (msg : string) :
  (forall e3,
     db_fault (snd (utcnow (snd (uuid4 (env w))))) = (Some msg, e3) ->
     create_status_check input status_checks w =
       (Raise (Exception msg), set_env e3 w)) /\
  (forall e3,
     db_fault (env w) = (Some msg, e3) ->
     get_status_checks status_checks w = (Raise (Exception msg), set_env e3 w)).
Proof.
  split; intros e3 Hdb.
  - unfold create_status_check.
    rewrite (bind_ok _ _ _ _ _ (uuid4_run w)).
    rewrite (bind_ok _ _ _ _ _ (now_run _)).
    cbv zeta. apply bind_raise.
    rewrite db_call_run. cbn [env set_env identified]. rewrite Hdb. reflexivity.
  - unfold get_status_checks. apply bind_raise.
    rewrite db_call_run, Hdb. reflexivity.
Qed.

Lemma status_faults_propagate_witness :
  @create_status_check store_down (StatusCheckCreate.mk "kiosk-7") []
    (@initial store_down 0%nat) =
    (Raise (Exception "connection refused"), @mkWorld store_down None None [] 2%nat []) /\
  @get_status_checks store_down [] (@initial store_down 0%nat) =
    (Raise (Exception "connection refused"), @mkWorld store_down None None [] 0%nat []).
Proof.
  destruct (@status_faults_propagate store_down (StatusCheckCreate.mk "kiosk-7") []
              (@initial store_down 0%nat) "connection refused") as [Hcreate Hlist].
  split; [apply (Hcreate 2%nat eq_refl) | apply (Hlist 0%nat eq_refl)].
Defined.

(** ** What is logged *)

Section Logging.
Context `{P : Platform}.

Lemma log_kept_refl (w : World) : log_kept w w.
Proof. reflexivity. Qed.

Lemma log_kept_trans (w1 w2 w3 : World) :
  log_kept w1 w2 -> log_kept w2 w3 -> log_kept w1 w3.
Proof. unfold log_kept. congruence. Qed.

Lemma log_lines_emit (ev : Event) (w : World) :
  log_lines (emit ev w) =
  (log_lines w ++ match ev with EvLogError line => [line] | _ => [] end)%list.
Proof.
  unfold log_lines, emit. simpl. rewrite omap_app. simpl.
  destruct ev; reflexivity.
Qed.

Lemma log_kept_construct (cls : AgentClass) (w : World) :
  log_kept w (emit (EvConstruct cls) w).
Proof. unfold log_kept. rewrite log_lines_emit. apply app_nil_r. Qed.

Lemma keeps_log_chat_resolve_agent (agent_type : string) :
  keeps log_kept (chat_resolve_agent agent_type).
Proof.
  unfold chat_resolve_agent, new_agent.
  keeps_by log_kept_refl log_kept_trans
    ltac:(first [apply log_kept_construct | reflexivity]).
Qed.

Lemma keeps_log_search_resolve_agent : keeps log_kept search_resolve_agent.
Proof.
  unfold search_resolve_agent, new_agent.
  keeps_by log_kept_refl log_kept_trans
    ltac:(first [apply log_kept_construct | reflexivity]).
Qed.

End Logging.

(** X16: a failure that the agent reports is not logged, a fault of the
    dispatch is.  When the agent is resolved and its [execute] returns an
    outcome, with [success] true or false, the chat dispatcher writes no
    log line, and the search dispatcher writes none when the outcome
    reports failure; when [execute] raises, each writes exactly one line,
    naming the endpoint and [str(e)]. *)
Theorem reported_failures_not_logged `{P : Platform} :
  (forall request w a w1 o e',
     chat_resolve_agent (ChatRequest.agent_type request) w = (Ok a, w1) ->
     agent_execute (agent_class a) (agent_cfg a) (ChatRequest.message request) None
       (env w1) = (inr o, e') ->
     log_lines (snd (chat_with_agent request w)) = log_lines w) /\
  (forall request w a w1 o e',
     search_resolve_agent w = (Ok a, w1) ->
     agent_execute (agent_class a) (agent_cfg a)
       (search_prompt_of (SearchRequest.query request)) (Some true) (env w1) =
       (inr o, e') ->
     success o = false ->
     log_lines (snd (search_and_summarize request w)) = log_lines w) /\
  (forall request w a w1 msg e',
     chat_resolve_agent (ChatRequest.agent_type request) w = (Ok a, w1) ->
     agent_execute (agent_class a) (agent_cfg a) (ChatRequest.message request) None
       (env w1) = (inl msg, e') ->
     log_lines (snd (chat_with_agent request w)) =
       (log_lines w ++ ["Error in chat endpoint: " +:+ msg])%list) /\
  (forall request w a w1 msg e',
     search_resolve_agent w = (Ok a, w1) ->
     agent_execute (agent_class a) (agent_cfg a)
       (search_prompt_of (SearchRequest.query request)) (Some true) (env w1) =
       (inl msg, e') ->
     log_lines (snd (search_and_summarize request w)) =
       (log_lines w ++ ["Error in search endpoint: " +:+ msg])%list).
Proof.
  split; [| split; [| split]].
  - intros request w a w1 o e' Hres Hexec.
    pose proof (keeps_log_chat_resolve_agent (ChatRequest.agent_type request) w) as Hlog.
    rewrite Hres in Hlog. unfold log_kept in Hlog. simpl in Hlog.
    rewrite chat_with_agent_run, Hres, Hexec. simpl. exact Hlog.
  - intros request w a w1 o e' Hres Hexec Hko.
    pose proof (keeps_log_search_resolve_agent w) as Hlog.
    rewrite Hres in Hlog. unfold log_kept in Hlog. simpl in Hlog.
    rewrite search_and_summarize_run. cbv zeta. rewrite Hres, Hexec, Hko.
    simpl. exact Hlog.
  - intros request w a w1 msg e' Hres Hexec.
    pose proof (keeps_log_chat_resolve_agent (ChatRequest.agent_type request) w) as Hlog.
    rewrite Hres in Hlog. unfold log_kept in Hlog. simpl in Hlog.
    rewrite chat_with_agent_run, Hres, Hexec. cbn [snd].
    rewrite log_lines_emit. f_equal. exact Hlog.
  - intros request w a w1 msg e' Hres Hexec.
    pose proof (keeps_log_search_resolve_agent w) as Hlog.
    rewrite Hres in Hlog. unfold log_kept in Hlog. simpl in Hlog.
    rewrite search_and_summarize_run. cbv zeta. rewrite Hres, Hexec. cbn [snd].
    rewrite log_lines_emit. f_equal. exact Hlog.
Qed.

Lemma reported_failures_not_logged_witness :
  log_lines
    (snd (@chat_with_agent half_answer (ChatRequest.mk "hello" "chat" None)
            (@initial half_answer 0%nat))) = [] /\
  log_lines
    (snd (@search_and_summarize timed_out (SearchRequest.mk "rust ownership" 3)
            (@initial timed_out 0%nat))) = [].
Proof.
  destruct (@reported_failures_not_logged half_answer) as (Hchat & _).
  destruct (@reported_failures_not_logged timed_out) as (_ & Hsearch & _).
  split.
  - apply (Hchat (ChatRequest.mk "hello" "chat" None) (@initial half_answer 0%nat)
             (@mkAgent half_answer ChatAgent tt)
             (@mkWorld half_answer None (Some (@mkAgent half_answer ChatAgent tt)) []
                0%nat [EvConstruct ChatAgent])
             (mkOutcome false "partial answer" ∅ None) 0%nat);
      reflexivity.
  - apply (Hsearch (SearchRequest.mk "rust ownership" 3) (@initial timed_out 0%nat)
             (@mkAgent timed_out SearchAgent tt)
             (@mkWorld timed_out (Some (@mkAgent timed_out SearchAgent tt)) None []
                0%nat [EvConstruct SearchAgent])
             (mkOutcome false "" ∅ (Some "timeout")) 0%nat);
      reflexivity.
Defined.
